(** * HealthDoc: the audio agent ([src/agents/audio_agent.py])

    A shallow embedding of [AudioAgent]: model loading ([_load_models] and
    the three [_load_*] constructors), [preprocess_audio],
    [extract_features], [transcribe_audio] and [analyze].

    Conventions of the embedding.
    - A Python [dict] whose iteration order is observable (the
      configuration, [config["models"]], [self.models]) is an association
      list with unique keys, written to with [dict_set] (overwrite in
      place, else append).  The dictionaries the agent hands back
      ([features], the report) are [gmap string _].
    - A raised [Exception] is a value of [result]; code that can raise and
      touches the file system or the logger lives in the monad [M world].
    - The libraries the agent calls (torch, librosa, pydub, whisper,
      transformers, [os.path]) are the fields of one record, [Externals].
    - numpy arrays and torch tensors of floats are lists of real numbers:
      rounding is not modelled, shapes and indices are. *)

From Stdlib Require Import Reals Lra PrimFloat Ascii DecimalString.
From stdpp Require Import gmap strings list fin_maps.

(** ** Python values and dictionaries *)

(** The values a configuration dictionary ([Dict[str, Any]]) can hold. *)
#[warnings="-register-all"]
Inductive value : Type :=
| VNone
| VBool (b : bool)
| VInt (z : Z)
| VFloat (f : float)
| VStr (s : string)
| VDict (d : list (string * value)).

(** [bool(v)], as [if v:] evaluates it. *)
Definition truthy (v : value) : bool :=
  match v with
  | VNone => false
  | VBool b => b
  | VInt z => negb (z =? 0)%Z
  | VFloat f => negb (PrimFloat.eqb f 0%float)
  | VStr s => negb (String.eqb s "")
  | VDict d => match d with [] => false | _ :: _ => true end
  end.

(** [type(v).__name__] *)
Definition type_name (v : value) : string :=
  match v with
  | VNone => "NoneType"
  | VBool _ => "bool"
  | VInt _ => "int"
  | VFloat _ => "float"
  | VStr _ => "str"
  | VDict _ => "dict"
  end.

Section Dict.
Context {A : Type}.

(** [d.get(k)] *)
Fixpoint dict_get (k : string) (d : list (string * A)) : option A :=
  match d with
  | [] => None
  | (k', v) :: d' => if String.eqb k k' then Some v else dict_get k d'
  end.

(** [d.get(k, default)] *)
Definition dict_get_default (k : string) (default : A) (d : list (string * A)) : A :=
  match dict_get k d with
  | Some v => v
  | None => default
  end.

(** [d[k] = v] *)
Fixpoint dict_set (k : string) (v : A) (d : list (string * A)) : list (string * A) :=
  match d with
  | [] => [(k, v)]
  | (k', v') :: d' =>
      if String.eqb k k' then (k, v) :: d' else (k', v') :: dict_set k v d'
  end.

(** [list(d.keys())] *)
Definition dict_keys (d : list (string * A)) : list string := map fst d.
End Dict.

(** ** Exceptions and the state-and-exception monad *)

(** An exception: its class and [str(e)]. *)
Record exn : Type := Exn { exn_class : string; exn_str : string }.

Inductive result (A : Type) : Type :=
| Ok (a : A)
| Raise (e : exn).
Arguments Ok {A} a.
Arguments Raise {A} e.

(** A computation over a mutable state [S] that returns or raises; the
    state reached when it raises is kept, as Python keeps side effects. *)
Definition M (S A : Type) : Type := S -> result A * S.

Definition ret {S A} (a : A) : M S A := fun s => (Ok a, s).

Definition bind {S A B} (m : M S A) (f : A -> M S B) : M S B :=
  fun s =>
    match m s with
    | (Ok a, s') => f a s'
    | (Raise e, s') => (Raise e, s')
    end.

Definition raise {S A} (e : exn) : M S A := fun s => (Raise e, s).

(** [try: body  except Exception as e: handler(e)] *)
Definition try_except {S A} (body : M S A) (handler : exn -> M S A) : M S A :=
  fun s =>
    match body s with
    | (Ok a, s') => (Ok a, s')
    | (Raise e, s') => handler e s'
    end.

(** A call that cannot touch the state. *)
Definition pure_call {S A} (r : result A) : M S A := fun s => (r, s).

Notation "'let*' x ':=' c 'in' k" := (bind c (fun x => k))
  (at level 10, x name, c at level 100, k at level 200).
Notation "c ';;;' k" := (bind c (fun _ => k))
  (at level 100, k at level 200, right associativity).

(** [repr(s)] of a string without quotes or escapes; [str(KeyError(s))]. *)
Definition repr_str (s : string) : string := "'" +:+ s +:+ "'".

Definition KeyError (k : string) : exn := Exn "KeyError" (repr_str k).

Definition AttributeError (obj attr : string) : exn :=
  Exn "AttributeError"
      ("'" +:+ obj +:+ "' object has no attribute '" +:+ attr +:+ "'").

Definition IndexError (msg : string) : exn := Exn "IndexError" msg.

Definition ValueError (msg : string) : exn := Exn "ValueError" msg.

(** [d[k]] *)
Definition dict_getitem {S A} (k : string) (d : list (string * A)) : M S A :=
  match dict_get k d with
  | Some v => ret v
  | None => raise (KeyError k)
  end.

(** [v.get(k, default)] on an arbitrary value: only a [dict] has [get]. *)
Definition value_get {S} (v : value) (k : string) (default : value) : M S value :=
  match v with
  | VDict d => ret (dict_get_default k default d)
  | _ => raise (AttributeError (type_name v) "get")
  end.

(** [v.items()] *)
Definition value_items {S} (v : value) : M S (list (string * value)) :=
  match v with
  | VDict d => ret d
  | _ => raise (AttributeError (type_name v) "items")
  end.

(** ** Strings: the two path operations of [preprocess_audio] *)

(** [s.endswith(suffix)] *)
Definition endswith (s suffix : string) : bool :=
  let n := String.length s in
  let m := String.length suffix in
  (m <=? n) && String.eqb (String.substring (n - m) m s) suffix.

(** The part of [s] before its last ['.'], if it has one. *)
Fixpoint before_last_dot (s : string) : option string :=
  match s with
  | EmptyString => None
  | String c s' =>
      match before_last_dot s' with
      | Some p => Some (String c p)
      | None => if Ascii.eqb c "."%char then Some EmptyString else None
      end
  end.

(** [s.rsplit('.', 1)[0]] *)
Definition rsplit_dot_head (s : string) : string :=
  match before_last_dot s with
  | Some p => p
  | None => s
  end.

(** ** Arrays, tensors and the models' call interface *)

(** A one-dimensional float array: the samples of a clip. *)
Abbreviation audio := (list R) (only parsing).

(** Two- and three-dimensional float tensors, outermost dimension first. *)
Abbreviation tensor2 := (list (list R)) (only parsing).
Abbreviation tensor3 := (list (list (list R))) (only parsing).

Inductive torch_device : Type := cuda | cpu.

(** The three [torch.nn.Module] classes the agent defines. *)
Inductive module_class : Type := CoughClassifier | BreathingAnalyzer | VoiceAnalyzer.

(** What the audio-classification pipeline returns: scored labels. *)
Definition pipeline_output : Type := list (string * R).

(** A loaded model is a callable.  [analyze] calls it either on the path of
    the audio file or on a three-dimensional tensor. *)
Record Model (FS : Type) : Type := {
  call_path : string -> FS -> result pipeline_output;
  call_tensor : tensor3 -> result tensor2
}.
Arguments call_path {FS} _ _ _.
Arguments call_tensor {FS} _ _.

(** ** The libraries the agent calls *)

Record Externals : Type := {
  (** the file system, and a decoded [AudioSegment] *)
  FS : Type;
  Segment : Type;
  (** [torch.cuda.is_available()] *)
  torch_cuda_is_available : bool;
  (** [whisper.load_model(size, device=...)]; the loaded engine is its
      [transcribe(audio)["text"]] *)
  whisper_load_model : value -> torch_device -> FS -> result (audio -> result string);
  (** [CoughClassifier().to(device)] and the like: a freshly initialised module *)
  new_module : module_class -> torch_device -> result (Model FS);
  (** [os.path.exists(path)] *)
  os_path_exists : value -> FS -> result bool;
  (** [model.load_state_dict(torch.load(path, map_location=device)); model.eval()] *)
  load_state_dict : Model FS -> value -> torch_device -> FS -> result (Model FS);
  (** [pipeline("audio-classification", model="ehcalabres/...")] *)
  transformers_pipeline : FS -> result (Model FS) * FS;
  (** [AudioSegment.from_file(path)] and [segment.export(path, format='wav')] *)
  AudioSegment_from_file : string -> FS -> result Segment;
  AudioSegment_export : Segment -> string -> FS -> result unit * FS;
  (** [librosa.load(path, sr=sr)[0]] *)
  librosa_load : string -> value -> FS -> result audio;
  (** [librosa.util.normalize(audio)] *)
  librosa_util_normalize : audio -> result audio;
  (** [librosa.effects.split(audio, top_db=top_db)]: [(start, end)] pairs *)
  librosa_effects_split : audio -> value -> result (list (nat * nat));
  (** [librosa.feature.mfcc(y=audio, sr=sr, n_mfcc=n)] *)
  librosa_feature_mfcc : audio -> value -> value -> result tensor2;
  (** [librosa.feature.spectral_centroid(y=audio, sr=sr)] *)
  librosa_feature_spectral_centroid : audio -> value -> result tensor2;
  (** [librosa.feature.chroma_stft(y=audio, sr=sr)] *)
  librosa_feature_chroma_stft : audio -> value -> result tensor2;
  (** [librosa.onset.onset_strength(y=audio, sr=sr)] *)
  librosa_onset_onset_strength : audio -> value -> result (list R);
  (** [librosa.beat.tempo(onset_envelope=env, sr=sr)] *)
  librosa_beat_tempo : list R -> value -> result (list R)
}.

(** ** The world: the file system and what the logger has recorded *)

Inductive level : Type := INFO | WARNING | ERROR.

(** One constructor per [logger] call of the source, with the values its
    f-string interpolates. *)
Inductive log_message : Type :=
| AgentInitialized (d : torch_device) (whisper_model_size : value)
| SuccessfullyLoaded (model_name : string)
| FailedToLoad (model_name : string) (str_e : string)
| ModelNotFound (c : module_class) (model_path : value)
| ErrorPreprocessing (audio_path : string) (str_e : string)
| ErrorTranscribing (str_e : string)
| ErrorAnalyzing (str_e : string).

Record world (X : Externals) : Type := World {
  w_fs : FS X;
  w_log : list (level * log_message)
}.
Arguments World {X} _ _.
Arguments w_fs {X} _.
Arguments w_log {X} _.

Section World.
Context {X : Externals}.

(** [logger.info], [logger.warning], [logger.error] *)
Definition logger (l : level) (m : log_message) : M (world X) unit :=
  fun w => (Ok tt, World (w_fs w) (w_log w ++ [(l, m)])).

(** A library call that reads the file system. *)
Definition fs_read {A} (f : FS X -> result A) : M (world X) A :=
  fun w => (f (w_fs w), w).

(** A library call that may write the file system. *)
Definition fs_update {A} (f : FS X -> result A * FS X) : M (world X) A :=
  fun w => let '(r, fs') := f (w_fs w) in (r, World fs' (w_log w)).
End World.

(** ** The agent *)

Record AudioAgent (X : Externals) : Type := {
  config : list (string * value);
  device : torch_device;
  sample_rate : value;
  models : list (string * Model (FS X));
  whisper_model : audio -> result string
}.
Arguments config {X} _.
Arguments device {X} _.
Arguments sample_rate {X} _.
Arguments models {X} _.
Arguments whisper_model {X} _.

Section Loading.
Context {X : Externals}.

(** [_load_cough_classifier]: the path is read from the configuration
    first, then the module is built. *)
Definition _load_cough_classifier (dev : torch_device) (config : value)
  : M (world X) (Model (FS X)) :=
  let* model_path :=
    value_get config "model_path" (VStr "models/audio_models/cough_classifier.pt") in
  let* model := pure_call (new_module X CoughClassifier dev) in
  let* found := fs_read (os_path_exists X model_path) in
  if found : bool then fs_read (load_state_dict X model model_path dev)
  else logger WARNING (ModelNotFound CoughClassifier model_path) ;;; ret model.

(** [_load_breathing_analyzer]: the module is built first. *)
Definition _load_breathing_analyzer (dev : torch_device) (config : value)
  : M (world X) (Model (FS X)) :=
  let* model := pure_call (new_module X BreathingAnalyzer dev) in
  let* model_path :=
    value_get config "model_path" (VStr "models/audio_models/breathing_analyzer.pt") in
  let* found := fs_read (os_path_exists X model_path) in
  if found : bool then fs_read (load_state_dict X model model_path dev)
  else logger WARNING (ModelNotFound BreathingAnalyzer model_path) ;;; ret model.

(** [_load_voice_analyzer] *)
Definition _load_voice_analyzer (dev : torch_device) (config : value)
  : M (world X) (Model (FS X)) :=
  let* model_path :=
    value_get config "model_path" (VStr "models/audio_models/voice_analyzer.pt") in
  let* model := pure_call (new_module X VoiceAnalyzer dev) in
  let* found := fs_read (os_path_exists X model_path) in
  if found : bool then fs_read (load_state_dict X model model_path dev)
  else logger WARNING (ModelNotFound VoiceAnalyzer model_path) ;;; ret model.

(** The body of the [try] of [_load_models] for one item of the
    configuration; it returns [self.models] as the body leaves it.

    The first two branches assign.  The branches of ["voice_analyzer"]
    and ["emotion_detector"] are comparisons ([==]): Python evaluates the
    left operand [self.models[model_name]] first, then the right one,
    and stores nothing.  The right operand of the ["voice_analyzer"]
    branch looks up [self._load_voice_ananlyzer], an attribute the class
    does not have. *)
Definition load_model_body (dev : torch_device) (self_models : list (string * Model (FS X)))
    (model_name : string) (model_config : value)
  : M (world X) (list (string * Model (FS X))) :=
  let* self_models' :=
    if String.eqb model_name "cough_classifier" then
      let* m := _load_cough_classifier dev model_config in
      ret (dict_set model_name m self_models)
    else if String.eqb model_name "breathing_analyzer" then
      let* m := _load_breathing_analyzer dev model_config in
      ret (dict_set model_name m self_models)
    else if String.eqb model_name "voice_analyzer" then
      let* _ := dict_getitem model_name self_models in
      raise (AttributeError "AudioAgent" "_load_voice_ananlyzer")
    else if String.eqb model_name "emotion_detector" then
      let* _ := dict_getitem model_name self_models in
      let* _ := fs_update (transformers_pipeline X) in
      ret self_models
    else ret self_models in
  logger INFO (SuccessfullyLoaded model_name) ;;;
  ret self_models'.

(** One iteration of the loop: the [try] and its [except]. *)
Definition load_model_step (dev : torch_device) (self_models : list (string * Model (FS X)))
    (model_name : string) (model_config : value)
  : M (world X) (list (string * Model (FS X))) :=
  try_except (load_model_body dev self_models model_name model_config)
    (fun e =>
       logger ERROR (FailedToLoad model_name (exn_str e)) ;;;
       ret self_models).

(** [for model_name, model_config in model_configs.items(): ...] *)
Fixpoint load_models_loop (dev : torch_device) (items : list (string * value))
    (self_models : list (string * Model (FS X)))
  : M (world X) (list (string * Model (FS X))) :=
  match items with
  | [] => ret self_models
  | (model_name, model_config) :: rest =>
      let* self_models' := load_model_step dev self_models model_name model_config in
      load_models_loop dev rest self_models'
  end.

(** [_load_models]: it returns the registry [self.models] it leaves. *)
Definition _load_models (self : AudioAgent X)
  : M (world X) (list (string * Model (FS X))) :=
  let model_configs := dict_get_default "models" (VDict []) (config self) in
  let* items := value_items model_configs in
  load_models_loop (device self) items (models self).

(** [__init__] *)
Definition __init__ (config : list (string * value)) : M (world X) (AudioAgent X) :=
  let dev :=
    if torch_cuda_is_available X && truthy (dict_get_default "use_gpu" (VBool true) config)
    then cuda else cpu in
  let sample_rate := dict_get_default "sample_rate" (VInt 16000) config in
  let whisper_model_size := dict_get_default "whisper_model_size" (VStr "base") config in
  let* whisper := fs_read (whisper_load_model X whisper_model_size dev) in
  let self := {| config := config; device := dev; sample_rate := sample_rate;
                 models := []; whisper_model := whisper |} in
  let* loaded := _load_models self in
  logger INFO (AgentInitialized dev whisper_model_size) ;;;
  ret {| config := config; device := dev; sample_rate := sample_rate;
         models := loaded; whisper_model := whisper |}.
End Loading.

(** ** Preprocessing *)

(** [a[start:end]] for non-negative bounds. *)
Definition slice {A} (start stop : nat) (a : list A) : list A :=
  take (stop - start) (drop start a).

(** [np.concatenate(arrays)]: numpy refuses an empty list of arrays. *)
Definition np_concatenate {S} (arrays : list audio) : M S audio :=
  match arrays with
  | [] => raise (ValueError "need at least one array to concatenate")
  | _ :: _ => ret (concat arrays)
  end.

Section Preprocessing.
Context {X : Externals}.

(** The [except] clause of [preprocess_audio]: log and re-raise.  The
    message interpolates the local [audio_path] as it is when the
    exception arrives. *)
Definition log_and_reraise {A} (audio_path : string) (e : exn) : M (world X) A :=
  logger ERROR (ErrorPreprocessing audio_path (exn_str e)) ;;;
  raise e.

(** The first statement of the [try]: transcode anything that is not a
    [.wav]; it returns the local [audio_path] it leaves. *)
Definition convert_to_wav (audio_path : string) : M (world X) string :=
  if negb (endswith audio_path ".wav") then
    let* segment := fs_read (AudioSegment_from_file X audio_path) in
    let temp_path := rsplit_dot_head audio_path +:+ ".wav" in
    fs_update (AudioSegment_export X segment temp_path) ;;;
    ret temp_path
  else ret audio_path.

(** [top_db] as [preprocess_audio] reads it from the configuration. *)
Definition silence_top_db (config : list (string * value)) : value :=
  dict_get_default "silence_thresold" (VInt 30) config.

(** The rest of the [try]: load, normalise, cut the silence out. *)
Definition load_and_clean (self : AudioAgent X) (audio_path : string)
  : M (world X) audio :=
  let* audio := fs_read (librosa_load X audio_path (sample_rate self)) in
  let* audio :=
    if truthy (dict_get_default "normalize" (VBool true) (config self))
    then pure_call (librosa_util_normalize X audio)
    else ret audio in
  if truthy (dict_get_default "remove_silence" (VBool false) (config self)) then
    let* non_silent_intervals :=
      pure_call (librosa_effects_split X audio (silence_top_db (config self))) in
    np_concatenate (map (fun '(start, stop) => slice start stop audio) non_silent_intervals)
  else ret audio.

(** [preprocess_audio].  The one [try] of the source is written as two,
    before and after the assignment [audio_path = temp_path], with the
    same handler: the handler only differs in the path it logs. *)
Definition preprocess_audio (self : AudioAgent X) (audio_path : string)
  : M (world X) audio :=
  let* audio_path' :=
    try_except (convert_to_wav audio_path) (log_and_reraise audio_path) in
  try_except (load_and_clean self audio_path') (log_and_reraise audio_path').
End Preprocessing.

(** ** Feature extraction *)

(** A feature: a vector ([mfcc]) or a scalar. *)
Inductive feature : Type :=
| FVector (v : list R)
| FScalar (x : R).

Definition Rsum (l : list R) : R := fold_right Rplus 0%R l.

(** [a.mean()] of a flat array (numpy's [nan] on an empty array has no
    counterpart here: the quotient by zero is left unspecified). *)
Definition np_mean (l : list R) : R := (Rsum l / INR (length l))%R.

(** [t.mean()] and [t.mean(axis=1)] of a two-dimensional array. *)
Definition mean_all (t : tensor2) : R := np_mean (concat t).
Definition mean_axis1 (t : tensor2) : list R := map np_mean t.

(** [str(n)] *)
Definition str_nat (n : nat) : string := NilZero.string_of_uint (Nat.to_uint n).

(** The [IndexError] of an index past the end of the first dimension:
    numpy speaks of "axis 0", torch of "dimension 0". *)
Definition out_of_bounds (dimension : string) (i size : nat) : exn :=
  IndexError ("index " +:+ str_nat i +:+ " is out of bounds for " +:+ dimension
              +:+ " 0 with size " +:+ str_nat size).

(** [l[i]] on a Python list *)
Definition list_getitem {S A} (l : list A) (i : nat) : M S A :=
  match l !! i with
  | Some x => ret x
  | None => raise (IndexError "list index out of range")
  end.

(** [a[i]] on a numpy array *)
Definition ndarray_getitem {S A} (a : list A) (i : nat) : M S A :=
  match a !! i with
  | Some x => ret x
  | None => raise (out_of_bounds "axis" i (length a))
  end.

(** [t[i]] on a torch tensor *)
Definition tensor_getitem {S A} (t : list A) (i : nat) : M S A :=
  match t !! i with
  | Some x => ret x
  | None => raise (out_of_bounds "dimension" i (length t))
  end.

Section Features.
Context {X : Externals}.

(** [extract_features]: four independent [if]s, no [try]. *)
Definition extract_features {S} (self : AudioAgent X) (audio : audio)
  : M S (gmap string feature) :=
  let features : gmap string feature := ∅ in
  let* features :=
    if truthy (dict_get_default "extract_mfcc" (VBool true) (config self)) then
      let* mfccs :=
        pure_call (librosa_feature_mfcc X audio (sample_rate self)
                     (dict_get_default "n_mfcc" (VInt 13) (config self))) in
      ret (<["mfcc" := FVector (mean_axis1 mfccs)]> features)
    else ret features in
  let* features :=
    if truthy (dict_get_default "external_spectral_centroid" (VBool true) (config self)) then
      let* spectral_centroid :=
        pure_call (librosa_feature_spectral_centroid X audio (sample_rate self)) in
      ret (<["spectral_centroid" := FScalar (mean_all spectral_centroid)]> features)
    else ret features in
  let* features :=
    if truthy (dict_get_default "extract_chroma" (VBool true) (config self)) then
      let* bandwidth :=
        pure_call (librosa_feature_chroma_stft X audio (sample_rate self)) in
      ret (<["bandwidth" := FScalar (mean_all bandwidth)]> features)
    else ret features in
  let* features :=
    if truthy (dict_get_default "extract_tempo" (VBool true) (config self)) then
      let* onset_env :=
        pure_call (librosa_onset_onset_strength X audio (sample_rate self)) in
      let* tempo := pure_call (librosa_beat_tempo X onset_env (sample_rate self)) in
      let* tempo0 := ndarray_getitem tempo 0 in
      ret (<["tempo" := FScalar tempo0]> features)
    else ret features in
  ret features.

(** [transcribe_audio]: any failure of the engine becomes [""]. *)
Definition transcribe_audio (self : AudioAgent X) (audio : audio)
  : M (world X) string :=
  try_except (pure_call (whisper_model self audio))
    (fun e =>
       logger ERROR (ErrorTranscribing (exn_str e)) ;;;
       ret "").
End Features.

(** ** Inference *)

(** [torch.nn.functional.softmax] along the last dimension. *)
Definition softmax (row : list R) : list R :=
  map (fun x => (exp x / Rsum (map exp row))%R) row.

(** [softmax(output, dim=1)] *)
Definition softmax_dim1 (output : tensor2) : tensor2 := map softmax output.

(** [torch.argmax]: the index of the first maximal entry. *)
Fixpoint argmax_from (best_idx : nat) (best : R) (idx : nat) (l : list R) : nat :=
  match l with
  | [] => best_idx
  | x :: l' =>
      if Rlt_dec best x then argmax_from idx x (S idx) l'
      else argmax_from best_idx best (S idx) l'
  end.

Definition torch_argmax {S} (l : list R) : M S nat :=
  match l with
  | [] =>
      raise (IndexError
               "argmax(): Expected reduction dim to be specified for input.numel() == 0.")
  | x :: l' => ret (argmax_from 0 x 1 l')
  end.

(** [{k: v for k, v in pairs}] *)
Definition dict_of_pairs {A} (pairs : list (string * A)) : list (string * A) :=
  fold_left (fun d kv => dict_set (fst kv) (snd kv) d) pairs [].

(** [t.unsqueeze(0)] *)
Definition unsqueeze0 {A} (t : A) : list A := [t].

(** [len(t)]: the size of the first dimension. *)
Definition tensor_len {A} (t : list A) : nat := length t.

(** The tensor [analyze] passes to a torch model. *)
#[warnings="-abstract-large-number"]
Definition model_input (audio : audio) : tensor3 :=
  let model_input := unsqueeze0 (unsqueeze0 audio) in
  if 10000 <? tensor_len model_input
  then map (map (take 10000)) model_input
  else model_input.

Definition cough_classes : list string := ["normal"; "covid"; "pneumonia"; "bronchitis"].
Definition breathing_classes : list string :=
  ["normal"; "wheezy"; "crackle"; "stridor"; "rhonchi"].

(** What [analyze] stores under a key of its report. *)
Inductive report_value : Type :=
| Features (features : gmap string feature)
| Transcript (text : string)
| Emotion (emotion_result : pipeline_output)
| Classification (prediction : string) (confidence : R)
    (probabilities : list (string * R))
| VoiceScores (tremor hoarseness clarity : R)
| ErrorMessage (str_e : string).

(** The record of a classifier, from the raw output of its forward pass. *)
Definition classifier_record {S} (classes : list string) (output : tensor2)
  : M S report_value :=
  let* probs := tensor_getitem (softmax_dim1 output) 0 in
  let* class_idx := torch_argmax probs in
  let* prediction := list_getitem classes class_idx in
  let* confidence := tensor_getitem probs class_idx in
  ret (Classification prediction confidence (dict_of_pairs (zip classes probs))).

(** The record of the voice analyzer. *)
Definition voice_record {S} (output : tensor2) : M S report_value :=
  let* output := tensor_getitem output 0 in
  let* tremor := ndarray_getitem output 0 in
  let* hoarseness := ndarray_getitem output 1 in
  let* clarity := ndarray_getitem output 2 in
  ret (VoiceScores tremor hoarseness clarity).

Section Analysis.
Context {X : Externals}.

(** The state of a run of [analyze]: the local [results] and the world. *)
Definition run_state : Type := gmap string report_value * world X.

Definition in_world {A} (m : M (world X) A) : M run_state A :=
  fun s => let '(r, w') := m (snd s) in (r, (fst s, w')).

(** [results[key] = v] *)
Definition results_set (key : string) (v : report_value) : M run_state unit :=
  fun s => (Ok tt, (<[key := v]> (fst s), snd s)).

(** The body of the [for] of [analyze] for one loaded model. *)
Definition dispatch_model (audio_path : string) (audio : audio)
    (model_name : string) (model : Model (FS X)) : M run_state unit :=
  if String.eqb model_name "emotion_detector" then
    let* emotion_result := in_world (fs_read (call_path model audio_path)) in
    results_set model_name (Emotion emotion_result)
  else
    let* output := pure_call (call_tensor model (model_input audio)) in
    if String.eqb model_name "cough_classifier" then
      let* record := classifier_record cough_classes output in
      results_set model_name record
    else if String.eqb model_name "breathing_analyzer" then
      let* record := classifier_record breathing_classes output in
      results_set model_name record
    else if String.eqb model_name "voice_analyzer" then
      let* record := voice_record output in
      results_set model_name record
    else ret tt.

(** [for model_name, model in self.models.items(): ...] *)
Fixpoint dispatch_loop (audio_path : string) (audio : audio)
    (items : list (string * Model (FS X))) : M run_state unit :=
  match items with
  | [] => ret tt
  | (model_name, model) :: rest =>
      dispatch_model audio_path audio model_name model ;;;
      dispatch_loop audio_path audio rest
  end.

(** The body of the [try] of [analyze], up to its [return results]. *)
Definition analyze_body (self : AudioAgent X) (audio_path : string) : M run_state unit :=
  let* audio := in_world (preprocess_audio self audio_path) in
  let* features := extract_features self audio in
  results_set "features" (Features features) ;;;
  (if truthy (dict_get_default "transcribe" (VBool true) (config self)) then
     let* transcript := in_world (transcribe_audio self audio) in
     results_set "transcript" (Transcript transcript)
   else ret tt) ;;;
  dispatch_loop audio_path audio (models self).

(** The [except] clause of [analyze]. *)
Definition analyze_handler (e : exn) : M run_state unit :=
  in_world (logger ERROR (ErrorAnalyzing (exn_str e))) ;;;
  results_set "error" (ErrorMessage (exn_str e)).

(** [analyze]: what it returns (or raises) and the world it leaves.
    [results] starts empty; both exits return it. *)
Definition analyze (self : AudioAgent X) (audio_path : string)
  : M (world X) (gmap string report_value) :=
  fun w =>
    let '(r, (results, w')) :=
      try_except (analyze_body self audio_path) analyze_handler (∅, w) in
    match r with
    | Ok _ => (Ok results, w')
    | Raise e => (Raise e, w')
    end.
End Analysis.

(** The agent [self] with another configuration dictionary; the other
    attributes are kept. *)
Definition set_config {X} (self : AudioAgent X) (config' : list (string * value))
  : AudioAgent X :=
  {| config := config'; device := device self;
     sample_rate := sample_rate self; models := models self;
     whisper_model := whisper_model self |}.

(** ** The features one by one

    What [extract_features] attempts, feature by feature: the key it would
    store, and the outcome of the library calls behind it.  A feature whose
    toggle is off is not attempted. *)

Definition result_map {A B} (f : A -> B) (r : result A) : result B :=
  match r with
  | Ok a => Ok (f a)
  | Raise e => Raise e
  end.

Definition result_bind {A B} (r : result A) (f : A -> result B) : result B :=
  match r with
  | Ok a => f a
  | Raise e => Raise e
  end.

Section FeatureAttempts.
Context {X : Externals}.

Definition attempt (self : AudioAgent X) (toggle key : string) (outcome : result feature)
  : list (string * result feature) :=
  if truthy (dict_get_default toggle (VBool true) (config self))
  then [(key, outcome)] else [].

Definition tempo_outcome (self : AudioAgent X) (audio : audio) : result feature :=
  result_bind (librosa_onset_onset_strength X audio (sample_rate self)) (fun onset_env =>
  result_bind (librosa_beat_tempo X onset_env (sample_rate self)) (fun tempo =>
  match tempo with
  | tempo0 :: _ => Ok (FScalar tempo0)
  | [] => Raise (out_of_bounds "axis" 0 0)
  end)).

Definition feature_attempts (self : AudioAgent X) (audio : audio)
  : list (string * result feature) :=
  attempt self "extract_mfcc" "mfcc"
    (result_map (fun t => FVector (mean_axis1 t))
       (librosa_feature_mfcc X audio (sample_rate self)
          (dict_get_default "n_mfcc" (VInt 13) (config self))))
  ++ attempt self "external_spectral_centroid" "spectral_centroid"
    (result_map (fun t => FScalar (mean_all t))
       (librosa_feature_spectral_centroid X audio (sample_rate self)))
  ++ attempt self "extract_chroma" "bandwidth"
    (result_map (fun t => FScalar (mean_all t))
       (librosa_feature_chroma_stft X audio (sample_rate self)))
  ++ attempt self "extract_tempo" "tempo" (tempo_outcome self audio).
End FeatureAttempts.

(** Store the outcomes in order; stop at the first exception. *)
Fixpoint collect_features (attempts : list (string * result feature))
    (features : gmap string feature) : result (gmap string feature) :=
  match attempts with
  | [] => Ok features
  | (key, Ok v) :: rest => collect_features rest (<[key := v]> features)
  | (_, Raise e) :: _ => Raise e
  end.

(** ** Notions used to state the properties *)

(** [m] neither reads nor writes the state. *)
Definition stateless {S A} (m : M S A) : Prop := forall s, snd (m s) = s.

Section WorldNotions.
Context {X : Externals}.

(** [m] never reads the log: started with the log [l] it does what it
    does with an empty log, and appends to [l]. *)
Definition log_blind {A} (m : M (world X) A) : Prop :=
  forall fs l,
    m (World fs l) =
    (fst (m (World fs [])),
     World (w_fs (snd (m (World fs [])))) (l ++ w_log (snd (m (World fs []))))).

(** [m] never writes the file system. *)
Definition fs_preserving {A} (m : M (world X) A) : Prop :=
  forall w, w_fs (snd (m w)) = w_fs w.

(** The part of the body of [analyze] that comes before the loop; it
    returns the preprocessed audio. *)
Definition analyze_front (self : AudioAgent X) (audio_path : string)
  : M (run_state (X:=X)) (list R) :=
  let* audio := in_world (preprocess_audio self audio_path) in
  let* features := extract_features self audio in
  results_set "features" (Features features) ;;;
  (if truthy (dict_get_default "transcribe" (VBool true) (config self)) then
     let* transcript := in_world (transcribe_audio self audio) in
     results_set "transcript" (Transcript transcript)
   else ret tt) ;;;
  ret audio.
End WorldNotions.

(** ** A laboratory

    A small concrete instance of the libraries, on which the agent can be
    run: a file system of named files that either hold samples or cannot be
    decoded, library calls that succeed on the former and fail on the
    latter the way the real ones do, and three stub models. *)

Inductive lab_file : Type :=
| Samples (a : list R)
| Garbage.

Definition FileNotFoundError (path : string) : exn :=
  Exn "FileNotFoundError" ("[Errno 2] No such file or directory: " +:+ repr_str path).

(** What slicing an array with [:n] raises when [n] is not an integer, as
    [librosa.feature.mfcc] slices its coefficients with [n_mfcc]. *)
Definition not_an_index : exn :=
  Exn "TypeError" "slice indices must be integers or None or have an __index__ method".

(** What a torch module answers when it is called on a path. *)
Definition not_a_tensor : exn :=
  Exn "TypeError" "conv1d() received an invalid combination of arguments".

(** A torch module that returns the same logits on every input. *)
Definition lab_module (logits : list R) : Model (list (string * lab_file)) :=
  {| call_path := fun _ _ => Raise not_a_tensor;
     call_tensor := fun _ => Ok [logits] |}.

(** A torch module whose first linear layer rejects the shape it is given. *)
Definition lab_broken_module : Model (list (string * lab_file)) :=
  {| call_path := fun _ _ => Raise not_a_tensor;
     call_tensor := fun _ =>
       Raise (Exn "RuntimeError" "mat1 and mat2 shapes cannot be multiplied") |}.

(** The length of the flattened output of the two convolutions and poolings
    of [CoughClassifier] and [BreathingAnalyzer] on [n] samples, per
    channel: [Conv1d(kernel_size=10, stride=5)], [MaxPool1d(2)], twice.
    [fc1] takes [128 * 99] inputs. *)
Definition flattened_length (n : nat) : nat :=
  let conv l := (l - 10) / 5 + 1 in
  let pool l := l / 2 in
  pool (conv (pool (conv n))).

(** A torch module that checks, as [fc1] does, the shape it is given. *)
Definition lab_window_module (logits : list R) : Model (list (string * lab_file)) :=
  {| call_path := fun _ _ => Raise not_a_tensor;
     call_tensor := fun t =>
       match t with
       | [[row]] =>
           if flattened_length (length row) =? 99 then Ok [logits]
           else Raise (Exn "RuntimeError" "mat1 and mat2 shapes cannot be multiplied")
       | _ => Raise (Exn "RuntimeError" "mat1 and mat2 shapes cannot be multiplied")
       end |}.

(** The emotion pipeline: it reads the file and answers with one label. *)
Definition lab_pipeline : Model (list (string * lab_file)) :=
  {| call_path := fun path fs =>
       match dict_get path fs with
       | Some (Samples _) => Ok [("neutral", 1%R)]
       | Some Garbage =>
           Raise (Exn "ValueError" "Soundfile is either not in the correct format or is malformed")
       | None => Raise (FileNotFoundError path)
       end;
     call_tensor := fun _ => Raise (Exn "ValueError" "We expect a numpy ndarray as input") |}.

Definition lab_logits (c : module_class) : list R :=
  match c with
  | CoughClassifier => [0; 0; 0; 0]%R
  | BreathingAnalyzer => [0; 0; 0; 0; 0]%R
  | VoiceAnalyzer => [0; 0; 0]%R
  end.

Definition lab : Externals := {|
  FS := list (string * lab_file);
  Segment := list R;
  torch_cuda_is_available := false;
  whisper_load_model := fun _ _ _ => Ok (fun _ => Ok "hello");
  new_module := fun c _ => Ok (lab_module (lab_logits c));
  os_path_exists := fun path fs =>
    match path with
    | VStr p => Ok (match dict_get p fs with Some _ => true | None => false end)
    | _ => Raise (Exn "TypeError" "stat: path should be string, bytes, os.PathLike or integer")
    end;
  load_state_dict := fun model _ _ _ => Ok model;
  transformers_pipeline := fun fs => (Ok lab_pipeline, fs);
  AudioSegment_from_file := fun path fs =>
    match dict_get path fs with
    | Some (Samples a) => Ok a
    | Some Garbage =>
        Raise (Exn "CouldntDecodeError" "Decoding failed. ffmpeg returned error code: 1")
    | None => Raise (FileNotFoundError path)
    end;
  AudioSegment_export := fun segment path fs => (Ok tt, dict_set path (Samples segment) fs);
  librosa_load := fun path _ fs =>
    match dict_get path fs with
    | Some (Samples a) => Ok a
    | Some Garbage => Raise (Exn "NoBackendError" "")
    | None => Raise (FileNotFoundError path)
    end;
  librosa_util_normalize := fun a => Ok a;
  librosa_effects_split := fun a _ => Ok [(0, length a)];
  librosa_feature_mfcc := fun _ _ n_mfcc =>
    match n_mfcc with
    | VNone | VBool _ | VInt _ => Ok []
    | _ => Raise not_an_index
    end;
  librosa_feature_spectral_centroid := fun _ _ => Ok [];
  librosa_feature_chroma_stft := fun _ _ => Ok [];
  librosa_onset_onset_strength := fun a _ => Ok a;
  librosa_beat_tempo := fun _ _ => Ok [120%R]
|}.

(** A disk with one clip of two samples and one file that is not audio. *)
Definition lab_disk : list (string * lab_file) :=
  [("clip.wav", Samples [1; 0]%R); ("corrupt.wav", Garbage)].

Definition lab_world : world lab := World (X:=lab) lab_disk [].

(** An agent on [lab] with the given configuration and registry. *)
Definition lab_agent (config : list (string * value))
    (models : list (string * Model (list (string * lab_file)))) : AudioAgent lab :=
  Build_AudioAgent lab config cpu (VInt 16000) models (fun _ => Ok "hello").

(** An agent with three loaded models, the second of which rejects its input. *)
Definition lab_agent_three : AudioAgent lab :=
  lab_agent []
    [("emotion_detector", lab_pipeline);
     ("cough_classifier", lab_broken_module);
     ("breathing_analyzer", lab_module (lab_logits BreathingAnalyzer))].

(** ** Further notions *)

(** [m] leaves the component [f] of the state as it found it. *)
Definition preserves {S T A} (f : S -> T) (m : M S A) : Prop :=
  forall s, f (snd (m s)) = f s.

(** Intervals listed from left to right without overlap, none starting
    before [lo]: what [librosa.effects.split] returns. *)
Fixpoint ordered_intervals (lo : nat) (intervals : list (nat * nat)) : Prop :=
  match intervals with
  | [] => True
  | (start, stop) :: rest => lo <= start /\ start <= stop /\ ordered_intervals stop rest
  end.

(** The keys of the configuration that [analyze] and the methods it calls
    read. *)
Definition analyze_config_keys : list string :=
  ["normalize"; "remove_silence"; "silence_thresold"; "extract_mfcc"; "n_mfcc";
   "external_spectral_centroid"; "extract_chroma"; "extract_tempo"; "transcribe"].

Section AnalyzeRest.
Context {X : Externals}.

(** The body of [analyze] from the moment the local [audio_path] of
    [preprocess_audio] holds the path [wav_path] of a wave file. *)
Definition analyze_rest (self : AudioAgent X) (audio_path wav_path : string)
  : M (run_state (X:=X)) unit :=
  let* audio :=
    in_world (try_except (load_and_clean self wav_path) (log_and_reraise wav_path)) in
  let* features := extract_features self audio in
  results_set "features" (Features features) ;;;
  (if truthy (dict_get_default "transcribe" (VBool true) (config self)) then
     let* transcript := in_world (transcribe_audio self audio) in
     results_set "transcript" (Transcript transcript)
   else ret tt) ;;;
  dispatch_loop audio_path audio (models self).
End AnalyzeRest.

(** The laboratory with another silence detector. *)
Definition lab_with_split
    (split : list R -> value -> result (list (nat * nat))) : Externals := {|
  FS := FS lab;
  Segment := Segment lab;
  torch_cuda_is_available := torch_cuda_is_available lab;
  whisper_load_model := whisper_load_model lab;
  new_module := new_module lab;
  os_path_exists := os_path_exists lab;
  load_state_dict := load_state_dict lab;
  transformers_pipeline := transformers_pipeline lab;
  AudioSegment_from_file := AudioSegment_from_file lab;
  AudioSegment_export := AudioSegment_export lab;
  librosa_load := librosa_load lab;
  librosa_util_normalize := librosa_util_normalize lab;
  librosa_effects_split := split;
  librosa_feature_mfcc := librosa_feature_mfcc lab;
  librosa_feature_spectral_centroid := librosa_feature_spectral_centroid lab;
  librosa_feature_chroma_stft := librosa_feature_chroma_stft lab;
  librosa_onset_onset_strength := librosa_onset_onset_strength lab;
  librosa_beat_tempo := librosa_beat_tempo lab
|}.

(** A detector that hears nothing, and one that keeps two stretches. *)
Definition lab_quiet : Externals := lab_with_split (fun _ _ => Ok []).
Definition lab_two_stretches : Externals := lab_with_split (fun _ _ => Ok [(0, 1); (2, 4)]).

(** An agent on a laboratory with the silence filter on. *)
Definition lab_filtering_agent (X : Externals) : AudioAgent X :=
  Build_AudioAgent X [("remove_silence", VBool true)] cpu (VInt 16000) []
    (fun _ => Ok "hello").

(** A disk with one clip of five samples. *)
Definition lab_disk_five : list (string * lab_file) :=
  [("five.wav", Samples [1; 2; 3; 4; 5]%R)].

(** An agent whose speech engine fails on every clip. *)
Definition lab_deaf_agent : AudioAgent lab :=
  Build_AudioAgent lab [] cpu (VInt 16000) [("emotion_detector", lab_pipeline)]
    (fun _ => Raise (Exn "RuntimeError" "CUDA out of memory")).

(** The features of a clip that is not empty, all toggles on, in the
    laboratory. *)
Definition lab_features : gmap string feature :=
  <["tempo" := FScalar 120%R]>
    (<["bandwidth" := FScalar (mean_all [])]>
       (<["spectral_centroid" := FScalar (mean_all [])]>
          (<["mfcc" := FVector []]> ∅))).



(** The path a loader falls back on. *)
Definition default_model_path (c : module_class) : string :=
  match c with
  | CoughClassifier => "models/audio_models/cough_classifier.pt"
  | BreathingAnalyzer => "models/audio_models/breathing_analyzer.pt"
  | VoiceAnalyzer => "models/audio_models/voice_analyzer.pt"
  end.


(** The laboratory with weights files that cannot be unpickled. *)
Definition lab_unreadable_weights : Externals := {|
  FS := FS lab;
  Segment := Segment lab;
  torch_cuda_is_available := torch_cuda_is_available lab;
  whisper_load_model := whisper_load_model lab;
  new_module := new_module lab;
  os_path_exists := os_path_exists lab;
  load_state_dict := fun _ _ _ _ => Raise (Exn "UnpicklingError" "invalid load key");
  transformers_pipeline := transformers_pipeline lab;
  AudioSegment_from_file := AudioSegment_from_file lab;
  AudioSegment_export := AudioSegment_export lab;
  librosa_load := librosa_load lab;
  librosa_util_normalize := librosa_util_normalize lab;
  librosa_effects_split := librosa_effects_split lab;
  librosa_feature_mfcc := librosa_feature_mfcc lab;
  librosa_feature_spectral_centroid := librosa_feature_spectral_centroid lab;
  librosa_feature_chroma_stft := librosa_feature_chroma_stft lab;
  librosa_onset_onset_strength := librosa_onset_onset_strength lab;
  librosa_beat_tempo := librosa_beat_tempo lab
|}.

(** A configuration with two models, and a disk that holds a weights file
    for the first. *)
Definition lab_two_models : list (string * value) :=
  [("models", VDict [("cough_classifier", VDict [("model_path", VStr "cough.pt")]);
                     ("breathing_analyzer", VDict [])])].

Definition lab_disk_weights : list (string * lab_file) := [("cough.pt", Garbage)].

(** An agent that has not loaded its models yet. *)
Definition lab_new_agent (X : Externals) (config : list (string * value)) : AudioAgent X :=
  Build_AudioAgent X config cpu (VInt 16000) [] (fun _ => Ok "hello").

(** The names [analyze] has a branch for. *)
Definition dispatched_names : list string :=
  ["emotion_detector"; "cough_classifier"; "breathing_analyzer"; "voice_analyzer"].

(** * Properties *)

(** ** Running the monad *)

Section MonadFacts.
Context {S A B : Type}.

Lemma bind_ok (m : M S A) (f : A -> M S B) s a s' :
  m s = (Ok a, s') -> bind m f s = f a s'.
Proof. intros H. unfold bind. now rewrite H. Qed.

Lemma bind_raise (m : M S A) (f : A -> M S B) s e s' :
  m s = (Raise e, s') -> bind m f s = (Raise e, s').
Proof. intros H. unfold bind. now rewrite H. Qed.

Lemma bind_inv_ok (m : M S A) (f : A -> M S B) s b s2 :
  bind m f s = (Ok b, s2) ->
  exists a s1, m s = (Ok a, s1) /\ f a s1 = (Ok b, s2).
Proof.
  unfold bind. destruct (m s) as [[a|e] s1]; intros H; [eauto | discriminate].
Qed.

Lemma bind_inv_raise (m : M S A) (f : A -> M S B) s e s2 :
  bind m f s = (Raise e, s2) ->
  m s = (Raise e, s2) \/ exists a s1, m s = (Ok a, s1) /\ f a s1 = (Raise e, s2).
Proof.
  unfold bind. destruct (m s) as [[a|e'] s1]; intros H; [eauto | left; congruence].
Qed.
End MonadFacts.

(** Decide the comparisons of literal strings in the goal. *)
Ltac decide_names :=
  repeat match goal with
         | |- context [String.eqb ?a ?b] =>
             let r := eval vm_compute in (String.eqb a b) in
             change (String.eqb a b) with r
         end;
  cbv iota.

Lemma try_except_ok {S A} (body : M S A) handler s a s' :
  body s = (Ok a, s') -> try_except body handler s = (Ok a, s').
Proof. intros H. unfold try_except. now rewrite H. Qed.

Lemma try_except_raise {S A} (body : M S A) handler s e s' :
  body s = (Raise e, s') -> try_except body handler s = handler e s'.
Proof. intros H. unfold try_except. now rewrite H. Qed.

(** ** Dictionaries *)

Section DictFacts.
Context {A : Type}.
Implicit Types (d : list (string * A)) (k : string).

Lemma dict_get_set_eq k (v : A) d : dict_get k (dict_set k v d) = Some v.
Proof.
  induction d as [|[k' v'] d IH]; simpl.
  - now rewrite String.eqb_refl.
  - destruct (String.eqb k k') eqn:E; simpl; rewrite ?String.eqb_refl, ?E; auto.
Qed.

Lemma dict_get_set_ne k k' (v : A) d :
  k <> k' -> dict_get k (dict_set k' v d) = dict_get k d.
Proof.
  intros Hne. induction d as [|[k2 v2] d IH]; simpl.
  - destruct (String.eqb_spec k k'); congruence.
  - destruct (String.eqb_spec k' k2) as [->|Hk2]; simpl.
    + destruct (String.eqb_spec k k2); congruence.
    + destruct (String.eqb_spec k k2); auto.
Qed.

Lemma dict_get_None k d : dict_get k d = None <-> k ∉ dict_keys d.
Proof.
  induction d as [|[k' v'] d IH]; simpl.
  - split; [intros _; apply not_elem_of_nil | auto].
  - rewrite not_elem_of_cons. destruct (String.eqb_spec k k') as [->|Hne].
    + split; [discriminate | intros [? _]; congruence].
    + rewrite IH. tauto.
Qed.

Lemma dict_set_fresh k (v : A) d :
  k ∉ dict_keys d -> dict_set k v d = d ++ [(k, v)].
Proof.
  induction d as [|[k' v'] d IH]; simpl; [reflexivity|].
  rewrite not_elem_of_cons. intros [Hne Hnin].
  destruct (String.eqb_spec k k'); [congruence|]. now rewrite IH.
Qed.
Lemma dict_keys_set k k' (v : A) d :
  k' ∈ dict_keys (dict_set k v d) <-> k' = k \/ k' ∈ dict_keys d.
Proof.
  induction d as [|[k2 v2] d IH]; simpl.
  - rewrite elem_of_cons, elem_of_nil. tauto.
  - destruct (String.eqb_spec k k2) as [->|Hne]; simpl.
    + rewrite elem_of_cons. tauto.
    + rewrite !elem_of_cons, IH. tauto.
Qed.

Lemma NoDup_dict_set k (v : A) d :
  NoDup (dict_keys d) -> NoDup (dict_keys (dict_set k v d)).
Proof.
  induction d as [|[k2 v2] d IH]; simpl; intros Hnd.
  - apply NoDup_singleton.
  - apply NoDup_cons in Hnd as [Hnin Hnd].
    destruct (String.eqb_spec k k2) as [->|Hne]; simpl.
    + apply NoDup_cons. auto.
    + apply NoDup_cons. split; [|auto].
      rewrite dict_keys_set. intros [?|?]; congruence.
Qed.
End DictFacts.

(** ** Computations that ignore the log, and computations that leave the
    file system alone *)

Section WorldFacts.
Context {X : Externals}.

Lemma log_blind_ret {A} (a : A) : log_blind (X:=X) (ret a).
Proof. intros fs l. unfold ret. simpl. now rewrite app_nil_r. Qed.

Lemma log_blind_raise {A} e : log_blind (X:=X) (@raise _ A e).
Proof. intros fs l. unfold raise. simpl. now rewrite app_nil_r. Qed.

Lemma log_blind_pure_call {A} (r : result A) : log_blind (X:=X) (pure_call r).
Proof. intros fs l. unfold pure_call. simpl. now rewrite app_nil_r. Qed.

Lemma log_blind_logger lv msg : log_blind (X:=X) (logger lv msg).
Proof. intros fs l. reflexivity. Qed.

Lemma log_blind_fs_read {A} (f : FS X -> result A) : log_blind (X:=X) (fs_read f).
Proof. intros fs l. unfold fs_read. simpl. now rewrite app_nil_r. Qed.

Lemma log_blind_fs_update {A} (f : FS X -> result A * FS X) :
  log_blind (X:=X) (fs_update f).
Proof.
  intros fs l. unfold fs_update. simpl. destruct (f fs). simpl. now rewrite app_nil_r.
Qed.

Lemma log_blind_bind {A B} (m : M (world X) A) (f : A -> M (world X) B) :
  log_blind (X:=X) m -> (forall a, log_blind (X:=X) (f a)) ->
  log_blind (X:=X) (bind m f).
Proof.
  intros Hm Hf fs l. unfold bind.
  rewrite (Hm fs l). destruct (m (World fs [])) as [[a|e] [fs1 l1]]; simpl.
  - rewrite (Hf a fs1 (l ++ l1)), (Hf a fs1 l1).
    simpl. now rewrite app_assoc.
  - reflexivity.
Qed.

Lemma log_blind_try_except {A} (m : M (world X) A) h :
  log_blind (X:=X) m -> (forall e, log_blind (X:=X) (h e)) ->
  log_blind (X:=X) (try_except m h).
Proof.
  intros Hm Hh fs l. unfold try_except.
  rewrite (Hm fs l). destruct (m (World fs [])) as [[a|e] [fs1 l1]]; simpl.
  - reflexivity.
  - rewrite (Hh e fs1 (l ++ l1)), (Hh e fs1 l1).
    simpl. now rewrite app_assoc.
Qed.

Lemma log_blind_if {A} (b : bool) (m1 m2 : M (world X) A) :
  log_blind (X:=X) m1 -> log_blind (X:=X) m2 -> log_blind (X:=X) (if b then m1 else m2).
Proof. now destruct b. Qed.

Lemma fs_preserving_ret {A} (a : A) : fs_preserving (X:=X) (ret a).
Proof. intros w. reflexivity. Qed.

Lemma fs_preserving_raise {A} e : fs_preserving (X:=X) (@raise _ A e).
Proof. intros w. reflexivity. Qed.

Lemma fs_preserving_pure_call {A} (r : result A) : fs_preserving (X:=X) (pure_call r).
Proof. intros w. reflexivity. Qed.

Lemma fs_preserving_logger lv msg : fs_preserving (X:=X) (logger lv msg).
Proof. intros w. reflexivity. Qed.

Lemma fs_preserving_fs_read {A} (f : FS X -> result A) : fs_preserving (X:=X) (fs_read f).
Proof. intros w. reflexivity. Qed.

Lemma fs_preserving_bind {A B} (m : M (world X) A) (f : A -> M (world X) B) :
  fs_preserving (X:=X) m -> (forall a, fs_preserving (X:=X) (f a)) ->
  fs_preserving (X:=X) (bind m f).
Proof.
  intros Hm Hf w. unfold bind. specialize (Hm w).
  destruct (m w) as [[a|e] w1]; simpl in *; [|assumption].
  now rewrite (Hf a w1).
Qed.

Lemma fs_preserving_if {A} (b : bool) (m1 m2 : M (world X) A) :
  fs_preserving (X:=X) m1 -> fs_preserving (X:=X) m2 ->
  fs_preserving (X:=X) (if b then m1 else m2).
Proof. now destruct b. Qed.

Lemma log_blind_value_get v k d : log_blind (X:=X) (@value_get (world X) v k d).
Proof. destruct v; simpl; auto using log_blind_ret, log_blind_raise. Qed.

Lemma fs_preserving_value_get v k d : fs_preserving (X:=X) (@value_get (world X) v k d).
Proof. destruct v; simpl; auto using fs_preserving_ret, fs_preserving_raise. Qed.

Lemma log_blind_dict_getitem {A} k (d : list (string * A)) :
  log_blind (X:=X) (@dict_getitem (world X) A k d).
Proof.
  unfold dict_getitem. destruct (dict_get k d); auto using log_blind_ret, log_blind_raise.
Qed.
End WorldFacts.

Create HintDb world_facts.
#[export] Hint Resolve log_blind_ret log_blind_raise log_blind_pure_call log_blind_logger
  log_blind_fs_read log_blind_fs_update log_blind_bind log_blind_try_except
  log_blind_if log_blind_value_get log_blind_dict_getitem : world_facts.
#[export] Hint Resolve fs_preserving_ret fs_preserving_raise fs_preserving_pure_call
  fs_preserving_logger fs_preserving_fs_read fs_preserving_bind fs_preserving_if
  fs_preserving_value_get : world_facts.

(** ** Loading the models *)

Section LoadingFacts.
Context {X : Externals}.
Implicit Types (ms : list (string * Model (FS X))) (w : world X).

Lemma log_blind_load_cough dev cfg : log_blind (X:=X) (_load_cough_classifier dev cfg).
Proof. unfold _load_cough_classifier. eauto 20 with world_facts. Qed.

Lemma log_blind_load_breathing dev cfg : log_blind (X:=X) (_load_breathing_analyzer dev cfg).
Proof. unfold _load_breathing_analyzer. eauto 20 with world_facts. Qed.

Lemma fs_preserving_load_cough dev cfg :
  fs_preserving (X:=X) (_load_cough_classifier dev cfg).
Proof. unfold _load_cough_classifier. eauto 20 with world_facts. Qed.

Lemma fs_preserving_load_breathing dev cfg :
  fs_preserving (X:=X) (_load_breathing_analyzer dev cfg).
Proof. unfold _load_breathing_analyzer. eauto 20 with world_facts. Qed.

Lemma log_blind_load_model_step dev ms n cfg :
  log_blind (X:=X) (load_model_step dev ms n cfg).
Proof.
  unfold load_model_step, load_model_body.
  eauto 20 using log_blind_load_cough, log_blind_load_breathing with world_facts.
Qed.

Lemma log_blind_load_models_loop dev items :
  forall ms, log_blind (X:=X) (load_models_loop dev items ms).
Proof.
  induction items as [|[n cfg] items IH]; intros ms; simpl.
  - auto with world_facts.
  - apply log_blind_bind; [apply log_blind_load_model_step | auto].
Qed.

(** A step never raises: the [except] clause absorbs what the body raises. *)
Lemma load_model_step_returns dev ms n cfg w :
  exists ms' w', load_model_step dev ms n cfg w = (Ok ms', w').
Proof.
  unfold load_model_step, try_except.
  destruct (load_model_body dev ms n cfg w) as [[ms'|e] w1]; [eauto|].
  unfold bind, logger, ret. eauto.
Qed.

(** What a failed step leaves: the registry it found, and one more line
    in the log. *)
Lemma load_model_step_failure dev ms n cfg w e w1 :
  load_model_body dev ms n cfg w = (Raise e, w1) ->
  load_model_step dev ms n cfg w =
  (Ok ms, World (w_fs w1) (w_log w1 ++ [(ERROR, FailedToLoad n (exn_str e))])).
Proof.
  intros H. unfold load_model_step. rewrite (try_except_raise _ _ _ _ _ H).
  reflexivity.
Qed.

Lemma load_models_loop_returns dev items :
  forall ms w, exists ms' w', load_models_loop dev items ms w = (Ok ms', w').
Proof.
  induction items as [|[n cfg] items IH]; intros ms w; simpl.
  - unfold ret. eauto.
  - destruct (load_model_step_returns dev ms n cfg w) as (ms1 & w1 & H1).
    rewrite (bind_ok _ _ _ _ _ H1). apply IH.
Qed.

Lemma load_models_loop_app dev pre post ms w ms1 w1 :
  load_models_loop dev pre ms w = (Ok ms1, w1) ->
  load_models_loop dev (pre ++ post) ms w = load_models_loop dev post ms1 w1.
Proof.
  revert ms w. induction pre as [|[n cfg] pre IH]; intros ms w H; simpl in *.
  - unfold ret in H. now inversion H.
  - destruct (load_model_step_returns dev ms n cfg w) as (ms2 & w2 & H2).
    rewrite (bind_ok _ _ _ _ _ H2) in H. rewrite (bind_ok _ _ _ _ _ H2).
    now apply IH.
Qed.

(** What the body of a step stores: under its own name, and only in the
    two assigning branches. *)
Lemma load_model_body_registry dev ms n cfg w ms' w' :
  load_model_body dev ms n cfg w = (Ok ms', w') ->
  ms' = ms \/
  ((n = "cough_classifier" \/ n = "breathing_analyzer") /\
   exists m, ms' = dict_set n m ms).
Proof.
  unfold load_model_body. intros H.
  apply bind_inv_ok in H as (x & w1 & Hbranch & Hlog).
  unfold bind, logger, ret in Hlog. injection Hlog as -> _.
  destruct (String.eqb_spec n "cough_classifier") as [->|_].
  { apply bind_inv_ok in Hbranch as (m & w2 & _ & Hset). unfold ret in Hset.
    injection Hset as <- _. right. eauto. }
  destruct (String.eqb_spec n "breathing_analyzer") as [->|_].
  { apply bind_inv_ok in Hbranch as (m & w2 & _ & Hset). unfold ret in Hset.
    injection Hset as <- _. right. eauto. }
  destruct (String.eqb_spec n "voice_analyzer") as [->|_].
  { apply bind_inv_ok in Hbranch as (m & w2 & _ & Hattr). discriminate. }
  destruct (String.eqb_spec n "emotion_detector") as [->|_].
  { apply bind_inv_ok in Hbranch as (m & w2 & _ & Hcmp).
    apply bind_inv_ok in Hcmp as (m' & w3 & _ & Hret). unfold ret in Hret.
    injection Hret as <- _. now left. }
  unfold ret in Hbranch. injection Hbranch as <- _. now left.
Qed.

Lemma load_model_step_registry dev ms n cfg w ms' w' :
  load_model_step dev ms n cfg w = (Ok ms', w') ->
  ms' = ms \/
  ((n = "cough_classifier" \/ n = "breathing_analyzer") /\
   exists m, ms' = dict_set n m ms).
Proof.
  unfold load_model_step, try_except.
  destruct (load_model_body dev ms n cfg w) as [[ms1|e] w1] eqn:Hb; intros H.
  - inversion H; subst. eapply load_model_body_registry; eauto.
  - unfold bind, logger, ret in H. inversion H. now left.
Qed.

(** A step leaves every other key of the registry as it found it. *)
Lemma load_model_step_other dev ms n cfg w ms' w' k :
  load_model_step dev ms n cfg w = (Ok ms', w') ->
  k <> n -> dict_get k ms' = dict_get k ms.
Proof.
  intros H Hne. apply load_model_step_registry in H as [->|[_ [m ->]]]; [reflexivity|].
  now apply dict_get_set_ne.
Qed.

Lemma load_models_loop_other dev items :
  forall ms w ms' w' k,
    load_models_loop dev items ms w = (Ok ms', w') ->
    k ∉ dict_keys items -> dict_get k ms' = dict_get k ms.
Proof.
  induction items as [|[n cfg] items IH]; intros ms w ms' w' k H Hk; simpl in *.
  - unfold ret in H. now inversion H.
  - apply not_elem_of_cons in Hk as [Hne Hk].
    destruct (load_model_step_returns dev ms n cfg w) as (ms1 & w1 & H1).
    rewrite (bind_ok _ _ _ _ _ H1) in H.
    rewrite (IH _ _ _ _ _ H Hk). eapply load_model_step_other; eauto.
Qed.

(** The two comparing branches store nothing, whatever they compare. *)
Lemma load_model_step_compares dev ms n cfg w ms' w' :
  n = "voice_analyzer" \/ n = "emotion_detector" ->
  load_model_step dev ms n cfg w = (Ok ms', w') -> ms' = ms.
Proof.
  intros Hn H. apply load_model_step_registry in H as [->|[Hn' _]]; [reflexivity|].
  destruct Hn as [->| ->], Hn' as [?|?]; discriminate.
Qed.

(** No step ever adds the keys ["voice_analyzer"] or ["emotion_detector"]. *)
Lemma load_models_loop_compares dev items :
  forall ms w ms' w' k,
    k = "voice_analyzer" \/ k = "emotion_detector" ->
    load_models_loop dev items ms w = (Ok ms', w') ->
    dict_get k ms' = dict_get k ms.
Proof.
  induction items as [|[n cfg] items IH]; intros ms w ms' w' k Hk H; simpl in *.
  - unfold ret in H. now inversion H.
  - destruct (load_model_step_returns dev ms n cfg w) as (ms1 & w1 & H1).
    rewrite (bind_ok _ _ _ _ _ H1) in H.
    rewrite (IH _ _ _ _ _ Hk H).
    apply load_model_step_registry in H1 as [->|[Hn [m ->]]]; [reflexivity|].
    apply dict_get_set_ne. destruct Hk as [->| ->], Hn as [->| ->]; discriminate.
Qed.
End LoadingFacts.

Section LoadingTheorems.
Context {X : Externals}.
Implicit Types (ms : list (string * Model (FS X))) (w : world X).

Lemma bind_raise_l {S A B} e (f : A -> M S B) : bind (raise e) f = raise e.
Proof. reflexivity. Qed.

(** While the registry has no key ["emotion_detector"], the body of a step
    cannot reach the only call that writes the file system. *)
Lemma load_model_body_fs dev ms n cfg w :
  dict_get "emotion_detector" ms = None ->
  w_fs (snd (load_model_body dev ms n cfg w)) = w_fs w.
Proof.
  intros Hemo. revert w. change (fs_preserving (X:=X) (load_model_body dev ms n cfg)).
  unfold load_model_body.
  apply fs_preserving_bind; [|auto with world_facts].
  destruct (String.eqb_spec n "cough_classifier") as [_|_];
    [eauto using fs_preserving_load_cough with world_facts|].
  destruct (String.eqb_spec n "breathing_analyzer") as [_|_];
    [eauto using fs_preserving_load_breathing with world_facts|].
  destruct (String.eqb_spec n "voice_analyzer") as [_|_].
  { unfold dict_getitem. destruct (dict_get n ms); auto with world_facts. }
  destruct (String.eqb_spec n "emotion_detector") as [->|_].
  { unfold dict_getitem. rewrite Hemo, bind_raise_l. auto with world_facts. }
  auto with world_facts.
Qed.

Lemma _load_models_unfold (self : AudioAgent X) items :
  dict_get "models" (config self) = Some (VDict items) ->
  _load_models self = load_models_loop (device self) items (models self).
Proof. intros H. unfold _load_models, dict_get_default. now rewrite H. Qed.

(** The registry the loop returns does not depend on the log it starts with. *)
Lemma load_models_loop_same_fs dev items ms w w' :
  w_fs w = w_fs w' ->
  fst (load_models_loop dev items ms w) = fst (load_models_loop dev items ms w').
Proof.
  destruct w as [fs l], w' as [fs' l']. simpl. intros <-.
  now rewrite (log_blind_load_models_loop dev items ms fs l),
              (log_blind_load_models_loop dev items ms fs l').
Qed.

(** C1, the part that holds: a cough classifier or breathing analyzer
    whose constructor returns is registered under its name. *)
Lemma constructed_model_is_registered (self : AudioAgent X) pre n cfg post w ms1 w1 m w2 :
  dict_get "models" (config self) = Some (VDict (pre ++ (n, cfg) :: post)) ->
  NoDup (dict_keys (pre ++ (n, cfg) :: post)) ->
  load_models_loop (device self) pre (models self) w = (Ok ms1, w1) ->
  (n = "cough_classifier" /\
     _load_cough_classifier (device self) cfg w1 = (Ok m, w2)) \/
  (n = "breathing_analyzer" /\
     _load_breathing_analyzer (device self) cfg w1 = (Ok m, w2)) ->
  exists ms w', _load_models self w = (Ok ms, w') /\ dict_get n ms = Some m.
Proof.
  intros Hcfg Hnd Hpre Hctor.
  rewrite (_load_models_unfold _ _ Hcfg), (load_models_loop_app _ _ _ _ _ _ _ Hpre).
  unfold dict_keys in Hnd. rewrite map_app in Hnd. simpl in Hnd.
  apply NoDup_app in Hnd as (_ & _ & Hnd). apply NoDup_cons in Hnd as [Hpost _].
  assert (Hstep : load_model_step (device self) ms1 n cfg w1 =
                  (Ok (dict_set n m ms1),
                   World (w_fs w2) (w_log w2 ++ [(INFO, SuccessfullyLoaded n)]))).
  { unfold load_model_step. apply try_except_ok. unfold load_model_body.
    destruct Hctor as [[-> Hc]|[-> Hc]]; decide_names;
      rewrite (bind_ok _ _ _ _ _ (bind_ok _ _ _ _ _ Hc)); reflexivity. }
  simpl. rewrite (bind_ok _ _ _ _ _ Hstep).
  destruct (load_models_loop_returns (device self) post (dict_set n m ms1)
              (World (w_fs w2) (w_log w2 ++ [(INFO, SuccessfullyLoaded n)])))
    as (ms & w' & Hloop).
  exists ms, w'. split; [assumption|].
  rewrite (load_models_loop_other _ _ _ _ _ _ _ Hloop Hpost).
  apply dict_get_set_eq.
Qed.

(** The registry [__init__] ends up with: distinct keys, all of them among
    the two names whose branch assigns.  Such keys cannot collide with the
    keys [analyze] itself writes into its report. *)
Lemma load_models_loop_keys dev items :
  forall ms w ms' w',
    load_models_loop dev items ms w = (Ok ms', w') ->
    NoDup (dict_keys ms) ->
    NoDup (dict_keys ms') /\
    (forall k, k ∈ dict_keys ms' ->
               k ∈ dict_keys ms \/ k = "cough_classifier" \/ k = "breathing_analyzer").
Proof.
  induction items as [|[n cfg] items IH]; intros ms w ms' w' H Hnd; simpl in H.
  - unfold ret in H. injection H as <- _. auto.
  - destruct (load_model_step_returns dev ms n cfg w) as (ms1 & w1 & H1).
    rewrite (bind_ok _ _ _ _ _ H1) in H.
    apply load_model_step_registry in H1 as [->|[Hn [m ->]]]; [eauto|].
    destruct (IH _ _ _ _ H (NoDup_dict_set n m ms Hnd)) as [Hnd' Hkeys].
    split; [assumption|]. intros k Hk.
    destruct (Hkeys k Hk) as [Hin|?]; [|auto].
    apply dict_keys_set in Hin as [->|?]; auto.
Qed.

Lemma loaded_registry_keys (self : AudioAgent X) w ms w' :
  models self = [] ->
  _load_models self w = (Ok ms, w') ->
  NoDup (dict_keys ms) /\
  (forall k, k ∈ dict_keys ms ->
             k <> "features" /\ k <> "transcript" /\ k <> "error").
Proof.
  intros Hempty H. unfold _load_models in H.
  apply bind_inv_ok in H as (items & w1 & _ & Hloop). rewrite Hempty in Hloop.
  destruct (load_models_loop_keys _ _ _ _ _ _ Hloop (NoDup_nil_2 ))
    as [Hnd Hkeys].
  split; [assumption|]. intros k Hk.
  destruct (Hkeys k Hk) as [Hin|[->| ->]];
    [now apply elem_of_nil in Hin | repeat split; discriminate ..].
Qed.

(** C1: [_load_models] never adds the key ["voice_analyzer"] nor the key
    ["emotion_detector"] to the registry, whether or not their
    constructors would return: the two branches compare ([==]) where the
    branches of the other two models assign.  From the empty registry
    of [__init__] the two names are therefore never registered. *)
Theorem compared_models_are_never_registered (self : AudioAgent X) w ms w' :
  models self = [] ->
  _load_models self w = (Ok ms, w') ->
  dict_get "voice_analyzer" ms = None /\ dict_get "emotion_detector" ms = None.
Proof.
  intros Hempty H. unfold _load_models in H.
  apply bind_inv_ok in H as (items & w1 & _ & Hloop). rewrite Hempty in Hloop.
  split.
  - now rewrite (load_models_loop_compares _ _ _ _ _ _ "voice_analyzer"
                   (or_introl eq_refl) Hloop).
  - now rewrite (load_models_loop_compares _ _ _ _ _ _ "emotion_detector"
                   (or_intror eq_refl) Hloop).
Qed.

(** C7: when the construction of one configured model fails, the failure
    is caught: [_load_models] returns, the failed name is not a key of
    the registry, and the registry is the one obtained from the same
    configuration without the failed name, so every other name is
    loaded, or fails, exactly as it would without it. *)
Theorem load_failure_is_isolated (self : AudioAgent X) pre n cfg post w ms1 w1 e w1' :
  models self = [] ->
  dict_get "models" (config self) = Some (VDict (pre ++ (n, cfg) :: post)) ->
  NoDup (dict_keys (pre ++ (n, cfg) :: post)) ->
  load_models_loop (device self) pre [] w = (Ok ms1, w1) ->
  load_model_body (device self) ms1 n cfg w1 = (Raise e, w1') ->
  exists ms w',
    _load_models self w = (Ok ms, w') /\
    dict_get n ms = None /\
    fst (_load_models
           (set_config self (dict_set "models" (VDict (pre ++ post)) (config self))) w)
    = Ok ms.
Proof.
  intros Hempty Hcfg Hnd Hpre Hfail.
  unfold dict_keys in Hnd. rewrite map_app in Hnd. simpl in Hnd.
  apply NoDup_app in Hnd as (_ & Hpre_nd & Hnd).
  apply NoDup_cons in Hnd as [Hpost _].
  assert (Hn_pre : n ∉ dict_keys pre).
  { intros Hin. apply (Hpre_nd n Hin). apply elem_of_cons. now left. }
  pose proof (load_model_step_failure _ _ _ _ _ _ _ Hfail) as Hstep.
  set (w2 := World (w_fs w1') (w_log w1' ++ [(ERROR, FailedToLoad n (exn_str e))])) in *.
  destruct (load_models_loop_returns (device self) post ms1 w2)
    as (ms & w' & Hloop).
  exists ms, w'. split; [|split].
  - rewrite (_load_models_unfold _ _ Hcfg), Hempty,
      (load_models_loop_app _ _ _ _ _ _ _ Hpre).
    simpl. now rewrite (bind_ok _ _ _ _ _ Hstep).
  - rewrite (load_models_loop_other _ _ _ _ _ _ _ Hloop Hpost).
    now rewrite (load_models_loop_other _ _ _ _ _ _ _ Hpre Hn_pre).
  - rewrite (_load_models_unfold _ (pre ++ post)) by apply dict_get_set_eq.
    simpl. rewrite Hempty, (load_models_loop_app _ _ _ _ _ _ _ Hpre).
    rewrite (load_models_loop_same_fs _ _ _ w1 w2), Hloop; [reflexivity|].
    subst w2. simpl.
    assert (Hemo : dict_get "emotion_detector" ms1 = None).
    { now rewrite (load_models_loop_compares _ _ _ _ _ _ "emotion_detector"
                     (or_intror eq_refl) Hpre). }
    pose proof (load_model_body_fs (device self) ms1 n cfg w1 Hemo) as Hfs.
    rewrite Hfail in Hfs. simpl in Hfs. now rewrite Hfs.
Qed.
End LoadingTheorems.

(** ** [analyze]: the outer [try] *)

Section AnalyzeFacts.
Context {X : Externals}.
Implicit Types (self : AudioAgent X) (w : world X)
  (results : gmap string report_value).

Lemma in_world_ok {A} (m : M (world X) A) results w a w' :
  m w = (Ok a, w') -> in_world m (results, w) = (Ok a, (results, w')).
Proof. intros H. unfold in_world. simpl. now rewrite H. Qed.

Lemma in_world_raise {A} (m : M (world X) A) results w e w' :
  m w = (Raise e, w') -> in_world m (results, w) = (Raise e, (results, w')).
Proof. intros H. unfold in_world. simpl. now rewrite H. Qed.

(** [analyze] returns the [results] its body has filled; when the body
    raises, it first stores [str(e)] under ["error"]. *)
Lemma analyze_unfold self audio_path w :
  analyze self audio_path w =
  match analyze_body self audio_path (∅, w) with
  | (Ok _, (results, w')) => (Ok results, w')
  | (Raise e, (results, w')) =>
      (Ok (<["error" := ErrorMessage (exn_str e)]> results),
       World (w_fs w') (w_log w' ++ [(ERROR, ErrorAnalyzing (exn_str e))]))
  end.
Proof.
  unfold analyze, try_except.
  destruct (analyze_body self audio_path (∅, w)) as [[[]|e] [results w']];
    reflexivity.
Qed.

(** C2: [analyze] returns a dictionary on every path, in every world and
    for every configuration, and raises nothing; when an exception
    escapes one of its stages, so that the body of its [try] raises [e],
    the dictionary holds [str(e)] under the key ["error"]. *)
Theorem analyze_never_raises self audio_path w :
  exists report w',
    analyze self audio_path w = (Ok report, w') /\
    match fst (analyze_body self audio_path (∅, w)) with
    | Ok _ => report = fst (snd (analyze_body self audio_path (∅, w)))
    | Raise e => report !! "error" = Some (ErrorMessage (exn_str e))
    end.
Proof.
  rewrite analyze_unfold.
  destruct (analyze_body self audio_path (∅, w)) as [[[]|e] [results w']]; simpl.
  - eauto.
  - eexists _, _. split; [reflexivity|]. apply lookup_insert_eq.
Qed.

(** C6, as the code has it: when [preprocess_audio] raises [e], the
    report is [{"error": str(e)}] and has no other key; the string is
    whatever message the exception carries. *)
Theorem decode_failure_report self audio_path w e w1 :
  preprocess_audio self audio_path w = (Raise e, w1) ->
  fst (analyze self audio_path w) = Ok {["error" := ErrorMessage (exn_str e)]}.
Proof.
  intros H. rewrite analyze_unfold. unfold analyze_body.
  rewrite (bind_raise _ _ _ _ _ (in_world_raise _ ∅ _ _ _ H)).
  simpl. now rewrite insert_empty.
Qed.
End AnalyzeFacts.

(** ** The tensor handed to the torch models *)

(** C3: [analyze] hands to a torch model the whole clip, as a tensor of
    shape [(1, 1, N)], whatever its length [N]: the length that is compared
    with 10000 is that of the first dimension, which is 1, so the cut to
    the first 10000 samples never happens. *)
Theorem model_input_keeps_every_sample (audio : audio) :
  model_input audio = [[audio]].
Proof. reflexivity. Qed.

(** A clip of 10001 samples reaches the model with its 10001 samples. *)
#[warnings="-abstract-large-number"]
Lemma model_input_10001 :
  exists row, model_input (replicate 10001 0%R) = [[row]] /\ length row = 10001.
Proof. eexists. split; [reflexivity|]. apply length_replicate. Qed.

(** The window the fixed layers are built for is 10000 samples. *)
#[warnings="-abstract-large-number"]
Example flattened_length_window : flattened_length 10000 = 99.
Proof. vm_compute. reflexivity. Qed.

(** A clip of 20000 samples, never cut, does not fit the first linear
    layer of a classifier: the report has an error where the record of the
    cough classifier would be.  Its first 10000 samples would fit. *)
#[warnings="-abstract-large-number"]
Example long_clip_is_not_cut :
  fst (analyze
         (lab_agent [("extract_mfcc", VBool false);
                     ("external_spectral_centroid", VBool false);
                     ("extract_chroma", VBool false);
                     ("extract_tempo", VBool false);
                     ("transcribe", VBool false)]
                    [("cough_classifier", lab_window_module (lab_logits CoughClassifier))])
         "long.wav"
         (World (X:=lab) [("long.wav", Samples (replicate 20000 0%R))] []))
  = Ok {["features" := Features ∅;
         "error" := ErrorMessage "mat1 and mat2 shapes cannot be multiplied"]} /\
  call_tensor (lab_window_module (lab_logits CoughClassifier))
    [[take 10000 (replicate 20000 0%R)]]
  = Ok [lab_logits CoughClassifier].
Proof. split; vm_compute; reflexivity. Qed.

(** ** Feature extraction *)

Section FeatureFacts.
Context {X : Externals}.
Implicit Types (self : AudioAgent X) (features : gmap string feature).

(** [extract_features] is the ordered collection of its attempts, and
    leaves the state alone. *)
Lemma extract_features_collect {S} self audio (s : S) :
  extract_features self audio s = (collect_features (feature_attempts self audio) ∅, s).
Proof.
  unfold extract_features, feature_attempts, attempt, tempo_outcome.
  destruct (truthy (dict_get_default "extract_mfcc" _ _));
  destruct (truthy (dict_get_default "external_spectral_centroid" _ _));
  destruct (truthy (dict_get_default "extract_chroma" _ _));
  destruct (truthy (dict_get_default "extract_tempo" _ _));
  unfold bind, pure_call, ret, ndarray_getitem, raise; simpl;
  repeat match goal with
         | |- context [match ?l with [] => _ | _ :: _ => _ end] =>
             is_var l; destruct l; simpl; try reflexivity
         | |- context [match ?r with Ok _ => _ | Raise _ => _ end] =>
             destruct r; simpl; try reflexivity
         end; reflexivity.
Qed.

Lemma collect_features_raise attempts features e :
  collect_features attempts features = Raise e ->
  exists key, (key, Raise e) ∈ attempts.
Proof.
  revert features. induction attempts as [|[key [v|e']] rest IH]; intros features H.
  - discriminate.
  - destruct (IH _ H) as [key' Hin]. exists key'. now apply list_elem_of_further.
  - simpl in H. injection H as ->. exists key. apply list_elem_of_here.
Qed.

Lemma collect_features_ok attempts features features' :
  collect_features attempts features = Ok features' ->
  forall key r, (key, r) ∈ attempts -> exists v, r = Ok v.
Proof.
  revert features. induction attempts as [|[key [v|e']] rest IH];
    intros features H key' r Hin.
  - now apply elem_of_nil in Hin.
  - apply elem_of_cons in Hin as [Heq|Hin]; [injection Heq as -> ->; eauto|].
    eapply IH; eauto.
  - discriminate.
Qed.

(** C4, as the code has it: [extract_features] has no handler of its
    own.  It leaves the state alone, and it raises exactly when the
    computation of one of the enabled features raises; the exception is
    then one that such a computation raised, and no dictionary is
    returned. *)
Theorem extract_features_all_or_nothing {S} self audio (s : S) :
  snd (extract_features self audio s) = s /\
  ((exists e, fst (extract_features self audio s) = Raise e) <->
   (exists key e, (key, Raise e) ∈ feature_attempts self audio)) /\
  (forall e, fst (extract_features self audio s) = Raise e ->
             exists key, (key, Raise e) ∈ feature_attempts self audio).
Proof.
  rewrite extract_features_collect. simpl. split; [reflexivity|]. split.
  - split.
    + intros [e He]. apply collect_features_raise in He as [key Hin]. eauto.
    + intros (key & e & Hin).
      destruct (collect_features (feature_attempts self audio) ∅) as [f|e'] eqn:Hc;
        [|eauto].
      destruct (collect_features_ok _ _ _ Hc _ _ Hin) as [v Hv]. discriminate.
  - intros e He. now apply collect_features_raise in He.
Qed.

(** C5, as the code has it: in the dictionary [extract_features]
    returns, the key ["mfcc"] is present exactly when the toggle
    [extract_mfcc] is on, the key ["tempo"] exactly when [extract_tempo]
    is on, and the chroma mean is stored under the key ["bandwidth"]
    exactly when [extract_chroma] is on; there is no key
    ["chroma_energy"].  Every feature that was attempted succeeded and
    is stored under its key. *)
Theorem feature_keys_follow_toggles {S} self audio (s s' : S) features :
  extract_features self audio s = (Ok features, s') ->
  (is_Some (features !! "mfcc") <->
     truthy (dict_get_default "extract_mfcc" (VBool true) (config self)) = true) /\
  (is_Some (features !! "tempo") <->
     truthy (dict_get_default "extract_tempo" (VBool true) (config self)) = true) /\
  (is_Some (features !! "bandwidth") <->
     truthy (dict_get_default "extract_chroma" (VBool true) (config self)) = true) /\
  features !! "chroma_energy" = None /\
  (forall key r, (key, r) ∈ feature_attempts self audio ->
                 exists v, r = Ok v /\ features !! key = Some v).
Proof.
  rewrite extract_features_collect. intros H. injection H as H _.
  revert H. unfold feature_attempts, attempt.
  destruct (truthy (dict_get_default "extract_mfcc" _ _));
  destruct (truthy (dict_get_default "external_spectral_centroid" _ _));
  destruct (truthy (dict_get_default "extract_chroma" _ _));
  destruct (truthy (dict_get_default "extract_tempo" _ _)); simpl;
  repeat match goal with
         | |- context [match ?r with Ok _ => _ | Raise _ => _ end] =>
             destruct r; simpl; try discriminate
         end;
  intros H; injection H as <-;
  (split; [|split; [|split; [|split]]]);
  try (split; [intros _; reflexivity | intros _; eexists; reflexivity]);
  try (split; [intros [v Hv]; discriminate Hv | intros Hf; discriminate Hf]);
  try reflexivity;
  intros key r Hin;
  repeat (apply elem_of_cons in Hin as [Heq|Hin];
          [injection Heq as -> ->; eexists; split; reflexivity|]);
  now apply elem_of_nil in Hin.
Qed.
End FeatureFacts.

(** ** Softmax and argmax *)

Section SoftmaxFacts.
Local Open Scope R_scope.

Lemma Rsum_map_div (l : list R) (f : R -> R) (t : R) :
  Rsum (map (fun x => f x / t) l) = Rsum (map f l) / t.
Proof.
  induction l as [|x l IH]; simpl.
  - unfold Rdiv. now rewrite Rmult_0_l.
  - rewrite IH. unfold Rdiv. ring.
Qed.

Lemma Rsum_map_exp_pos (l : list R) : l <> [] -> 0 < Rsum (map exp l).
Proof.
  intros Hne. assert (Hnonneg : forall k : list R, 0 <= Rsum (map exp k)).
  { induction k as [|y k IH]; simpl; [lra|]. pose proof (exp_pos y). lra. }
  destruct l as [|x l]; [congruence|]. simpl.
  pose proof (exp_pos x). pose proof (Hnonneg l). lra.
Qed.

(** The entries of a softmax add up to one. *)
Lemma Rsum_softmax (row : list R) : row <> [] -> Rsum (softmax row) = 1.
Proof.
  intros Hne. unfold softmax. rewrite Rsum_map_div.
  pose proof (Rsum_map_exp_pos row Hne). field. lra.
Qed.

Lemma length_softmax (row : list R) : length (softmax row) = length row.
Proof. unfold softmax. apply length_map. Qed.

(** The invariant of the scan of [torch.argmax]: [best] sits at
    [best_idx], nothing before [idx] exceeds it, nothing before
    [best_idx] reaches it. *)
Lemma argmax_from_spec (l pre : list R) :
  forall best_idx best,
    (pre !! best_idx = Some best) ->
    (forall j x, pre !! j = Some x -> x <= best) ->
    (forall j x, (j < best_idx)%nat -> pre !! j = Some x -> x < best) ->
    exists v,
      (pre ++ l) !! argmax_from best_idx best (length pre) l = Some v /\
      (forall j x, (pre ++ l) !! j = Some x -> x <= v) /\
      (forall j x, (j < argmax_from best_idx best (length pre) l)%nat ->
                   (pre ++ l) !! j = Some x -> x < v).
Proof.
  revert pre. induction l as [|y l IH]; intros pre best_idx best Hbest Hle Hlt.
  - simpl. rewrite app_nil_r. eauto.
  - simpl. replace (pre ++ y :: l) with ((pre ++ [y]) ++ l)
      by now rewrite <- app_assoc.
    replace (Datatypes.S (length pre)) with (length (pre ++ [y]))
      by (rewrite length_app; simpl; lia).
    destruct (Rlt_dec best y) as [Hby|Hby].
    + apply IH.
      * rewrite lookup_app_r by lia. now rewrite Nat.sub_diag.
      * intros j x Hj. apply lookup_app_Some in Hj as [Hj|[_ Hj]].
        -- specialize (Hle _ _ Hj). lra.
        -- destruct (j - length pre)%nat; simpl in Hj; [|discriminate].
           injection Hj as ->. lra.
      * intros j x Hjlt Hj. rewrite lookup_app_l in Hj by lia.
        specialize (Hle _ _ Hj). lra.
    + apply IH.
      * apply lookup_app_l_Some. assumption.
      * intros j x Hj. apply lookup_app_Some in Hj as [Hj|[_ Hj]].
        -- eauto.
        -- destruct (j - length pre)%nat; simpl in Hj; [|discriminate].
           injection Hj as ->. lra.
      * intros j x Hjlt Hj. apply lookup_lt_Some in Hbest.
        rewrite lookup_app_l in Hj by lia. eauto.
Qed.

(** [torch.argmax] on a non-empty row: the first index of the maximum. *)
Lemma torch_argmax_spec {S} (row : list R) (s : S) :
  row <> [] ->
  exists idx v,
    torch_argmax row s = (Ok idx, s) /\
    row !! idx = Some v /\
    (forall j x, row !! j = Some x -> x <= v) /\
    (forall j x, (j < idx)%nat -> row !! j = Some x -> x < v).
Proof.
  destruct row as [|x l]; [congruence|]. intros _.
  destruct (argmax_from_spec l [x] 0%nat x) as (v & Hv & Hmax & Hfirst).
  - reflexivity.
  - intros [|j] y Hj; simpl in Hj; [injection Hj as ->; lra | discriminate].
  - intros j y Hj. lia.
  - exists (argmax_from 0 x 1 l), v. simpl in *. auto.
Qed.
End SoftmaxFacts.

(** A dictionary comprehension over pairs with distinct keys keeps the pairs. *)
Lemma dict_of_pairs_NoDup {A} (pairs : list (string * A)) :
  NoDup (dict_keys pairs) -> dict_of_pairs pairs = pairs.
Proof.
  unfold dict_of_pairs.
  assert (H : forall acc : list (string * A),
             NoDup (dict_keys (acc ++ pairs)) ->
             fold_left (fun d kv => dict_set (fst kv) (snd kv) d) pairs acc = acc ++ pairs).
  { induction pairs as [|[k v] pairs IH]; intros acc Hnd; simpl.
    - now rewrite app_nil_r.
    - replace (acc ++ (k, v) :: pairs) with ((acc ++ [(k, v)]) ++ pairs) in *
        by now rewrite <- app_assoc.
      rewrite dict_set_fresh; [now apply IH|].
      unfold dict_keys in Hnd. rewrite !map_app in Hnd.
      apply NoDup_app in Hnd as (Hnd & _ & _).
      apply NoDup_app in Hnd as (_ & Hdisj & _).
      intros Hin. apply (Hdisj k Hin). simpl. apply list_elem_of_here. }
  intros Hnd. now apply (H []).
Qed.

(** ** The records of the classifiers *)

Section ClassifierFacts.
Context {X : Externals}.
Local Open Scope R_scope.

Lemma dict_keys_zip (classes : list string) (probs : list R) :
  length classes = length probs -> dict_keys (zip classes probs) = classes.
Proof. intros H. apply (fst_zip classes probs). lia. Qed.

Lemma map_snd_zip (classes : list string) (probs : list R) :
  length classes = length probs -> map snd (zip classes probs) = probs.
Proof. intros H. apply (snd_zip classes probs). lia. Qed.

(** The record built from an output whose first row has one logit per
    class. *)
Lemma classifier_record_spec {S} (classes : list string) (output : tensor2)
    (row : list R) (s : S) :
  NoDup classes -> classes <> [] ->
  output !! 0%nat = Some row -> length row = length classes ->
  exists idx prediction confidence,
    classifier_record classes output s =
      (Ok (Classification prediction confidence (zip classes (softmax row))), s) /\
    classes !! idx = Some prediction /\
    softmax row !! idx = Some confidence /\
    (forall j p, softmax row !! j = Some p -> p <= confidence) /\
    (forall j p, (j < idx)%nat -> softmax row !! j = Some p -> p < confidence).
Proof.
  intros Hnd Hne Hrow Hlen.
  assert (Hrow_ne : softmax row <> []).
  { intros Heq. apply (f_equal length) in Heq. rewrite length_softmax, Hlen in Heq.
    destruct classes; [congruence|discriminate]. }
  destruct (torch_argmax_spec (softmax row) s Hrow_ne)
    as (idx & v & Harg & Hv & Hmax & Hfirst).
  assert (Hidx : (idx < length classes)%nat).
  { apply lookup_lt_Some in Hv. rewrite length_softmax in Hv. lia. }
  destruct (lookup_lt_is_Some_2 classes idx Hidx) as [prediction Hpred].
  exists idx, prediction, v. repeat split; try assumption.
  unfold classifier_record, list_getitem, tensor_getitem, softmax_dim1.
  change (map softmax output) with (softmax <$> output).
  rewrite list_lookup_fmap, Hrow. simpl.
  unfold bind at 1. unfold ret at 1.
  rewrite (bind_ok _ _ _ _ _ Harg), Hpred.
  unfold bind at 1. unfold ret at 1. rewrite Hv.
  unfold bind, ret. rewrite dict_of_pairs_NoDup; [reflexivity|].
  rewrite dict_keys_zip; [assumption|]. now rewrite length_softmax.
Qed.

Lemma NoDup_cough_classes : NoDup cough_classes.
Proof. apply (bool_decide_unpack _). reflexivity. Qed.

Lemma NoDup_breathing_classes : NoDup breathing_classes.
Proof. apply (bool_decide_unpack _). reflexivity. Qed.

(** C8: the record [analyze] stores for the cough classifier (four
    labels) or the breathing analyzer (five labels), when the forward
    pass returns one logit per label.  Its [probabilities] have the
    labels of the model as keys, in their fixed order, and add up to 1
    (within 1e-5); [prediction] and [confidence] are the label and the
    probability at one index [idx]; no probability exceeds
    [confidence], and every probability at an index before [idx] is
    strictly smaller, so that [idx] is the first index of the maximum.
    Tensor entries are real numbers here: rounding is not modelled. *)
Theorem classifier_record_is_distribution (audio_path : string) (audio : audio)
    (model_name : string) (classes : list string) (model : Model (FS X))
    (results : gmap string report_value) (w : world X)
    (output : tensor2) (row : list R) :
  (model_name = "cough_classifier" /\ classes = cough_classes) \/
  (model_name = "breathing_analyzer" /\ classes = breathing_classes) ->
  call_tensor model (model_input audio) = Ok output ->
  output !! 0%nat = Some row ->
  length row = length classes ->
  exists idx prediction confidence probabilities,
    dispatch_model audio_path audio model_name model (results, w) =
      (Ok tt,
       (<[model_name := Classification prediction confidence probabilities]> results, w)) /\
    dict_keys probabilities = classes /\
    Rabs (Rsum (map snd probabilities) - 1) <= 1e-5 /\
    probabilities !! idx = Some (prediction, confidence) /\
    (forall j label p, probabilities !! j = Some (label, p) -> p <= confidence) /\
    (forall j label p, (j < idx)%nat -> probabilities !! j = Some (label, p) ->
                       p < confidence).
Proof.
  intros Hname Hcall Hrow Hlen.
  assert (Hnd : NoDup classes /\ classes <> []).
  { destruct Hname as [[_ ->]|[_ ->]];
      auto using NoDup_cough_classes, NoDup_breathing_classes. }
  destruct Hnd as [Hnd Hne].
  destruct (classifier_record_spec classes output row (results, w) Hnd Hne Hrow Hlen)
    as (idx & prediction & confidence & Hrec & Hpred & Hconf & Hmax & Hfirst).
  assert (Hlen' : length classes = length (softmax row))
    by now rewrite length_softmax.
  assert (Hrow_ne : row <> []).
  { intros ->. destruct classes; [congruence|discriminate]. }
  exists idx, prediction, confidence, (zip classes (softmax row)).
  split; [|split; [|split; [|split; [|split]]]].
  - unfold dispatch_model.
    destruct Hname as [[-> ->]|[-> ->]]; decide_names;
      unfold pure_call; rewrite Hcall;
      unfold bind at 1; rewrite (bind_ok _ _ _ _ _ Hrec); reflexivity.
  - now apply dict_keys_zip.
  - rewrite map_snd_zip by assumption. rewrite Rsum_softmax by assumption.
    replace (1 - 1) with 0 by ring. rewrite Rabs_R0. lra.
  - apply lookup_zip_with_Some. eauto.
  - intros j label p Hj. apply lookup_zip_with_Some in Hj as (a & b & Heq & _ & Hb).
    injection Heq as -> ->. eauto.
  - intros j label p Hlt Hj.
    apply lookup_zip_with_Some in Hj as (a & b & Heq & _ & Hb).
    injection Heq as -> ->. eauto.
Qed.
End ClassifierFacts.

(** ** The threshold of the silence filter *)

Section SilenceFacts.
Context {X : Externals}.

Lemma dict_get_default_set_ne {A} k k' (v d : A) (l : list (string * A)) :
  k <> k' -> dict_get_default k d (dict_set k' v l) = dict_get_default k d l.
Proof. intros H. unfold dict_get_default. now rewrite dict_get_set_ne. Qed.

(** [top_db] is read under the key ["silence_thresold"]; a value stored
    under ["silence_threshold_db"] does not reach it. *)
Lemma silence_top_db_ignores_threshold_db (v : value) (config : list (string * value)) :
  silence_top_db (dict_set "silence_threshold_db" v config) = silence_top_db config.
Proof. unfold silence_top_db. now apply dict_get_default_set_ne. Qed.

(** With [remove_silence] on and 60 configured, the filter runs with 30. *)
Example silence_top_db_default :
  silence_top_db [("remove_silence", VBool true); ("silence_threshold_db", VInt 60)]
  = VInt 30.
Proof. reflexivity. Qed.

(** The part of C9 that holds: on a [.wav] file, with [remove_silence] on,
    the output is the concatenation of the non-silent intervals of the
    (normalised) clip, in the order [librosa.effects.split] lists them. *)
Lemma remove_silence_concatenates (self : AudioAgent X) (audio_path : string)
    (w : world X) (loaded cleaned : list R) (intervals : list (nat * nat)) :
  endswith audio_path ".wav" = true ->
  truthy (dict_get_default "remove_silence" (VBool false) (config self)) = true ->
  librosa_load X audio_path (sample_rate self) (w_fs w) = Ok loaded ->
  (if truthy (dict_get_default "normalize" (VBool true) (config self))
   then librosa_util_normalize X loaded else Ok loaded) = Ok cleaned ->
  librosa_effects_split X cleaned (silence_top_db (config self)) = Ok intervals ->
  intervals <> [] ->
  preprocess_audio self audio_path w
  = (Ok (concat (map (fun '(start, stop) => slice start stop cleaned) intervals)), w).
Proof.
  intros Hwav Hon Hload Hnorm Hsplit Hne.
  unfold preprocess_audio, convert_to_wav. rewrite Hwav. simpl.
  unfold try_except at 2. unfold ret at 1. unfold bind at 1.
  unfold try_except, load_and_clean. rewrite Hon.
  unfold bind at 1. unfold fs_read. rewrite Hload.
  unfold bind at 1.
  assert (Hclean :
    (if truthy (dict_get_default "normalize" (VBool true) (config self))
     then pure_call (librosa_util_normalize X loaded) else ret loaded) w
    = (Ok cleaned, w)).
  { destruct (truthy (dict_get_default "normalize" (VBool true) (config self)));
      unfold pure_call, ret; now rewrite ?Hnorm; try injection Hnorm as ->. }
  rewrite Hclean. unfold bind, pure_call. rewrite Hsplit.
  destruct intervals; [congruence|]. reflexivity.
Qed.

(** C9: whatever value the configuration holds under
    [silence_threshold_db], [preprocess_audio] does the same: two
    configurations that differ only there give the same output on every
    file and in every world. *)
Theorem silence_threshold_db_is_ignored (self : AudioAgent X) (v : value)
    (audio_path : string) (w : world X) :
  preprocess_audio
    (set_config self (dict_set "silence_threshold_db" v (config self))) audio_path w
  = preprocess_audio self audio_path w.
Proof.
  unfold preprocess_audio, load_and_clean, set_config. simpl.
  rewrite silence_top_db_ignores_threshold_db.
  rewrite !dict_get_default_set_ne by discriminate.
  reflexivity.
Qed.
End SilenceFacts.

(** ** The dispatch loop *)

Section StatelessFacts.
Context {S : Type}.

Lemma stateless_ret {A} (a : A) : stateless (@ret S A a).
Proof. intros s. reflexivity. Qed.

Lemma stateless_raise {A} e : stateless (@raise S A e).
Proof. intros s. reflexivity. Qed.

Lemma stateless_bind {A B} (m : M S A) (f : A -> M S B) :
  stateless m -> (forall a, stateless (f a)) -> stateless (bind m f).
Proof.
  intros Hm Hf s. unfold bind. specialize (Hm s).
  destruct (m s) as [[a|e] s1]; simpl in *; subst; [apply Hf | reflexivity].
Qed.

Lemma stateless_list_getitem {A} (l : list A) i : stateless (@list_getitem S A l i).
Proof.
  unfold list_getitem. destruct (l !! i); auto using stateless_ret, stateless_raise.
Qed.

Lemma stateless_ndarray_getitem {A} (l : list A) i : stateless (@ndarray_getitem S A l i).
Proof.
  unfold ndarray_getitem. destruct (l !! i); auto using stateless_ret, stateless_raise.
Qed.

Lemma stateless_tensor_getitem {A} (l : list A) i : stateless (@tensor_getitem S A l i).
Proof.
  unfold tensor_getitem. destruct (l !! i); auto using stateless_ret, stateless_raise.
Qed.

Lemma stateless_torch_argmax (l : list R) : stateless (@torch_argmax S l).
Proof. destruct l; simpl; auto using stateless_ret, stateless_raise. Qed.

Lemma stateless_classifier_record classes output :
  stateless (@classifier_record S classes output).
Proof.
  unfold classifier_record.
  repeat (apply stateless_bind; [|intros ?]);
    auto using stateless_ret, stateless_list_getitem, stateless_tensor_getitem,
      stateless_torch_argmax.
Qed.

Lemma stateless_voice_record output : stateless (@voice_record S output).
Proof.
  unfold voice_record.
  repeat (apply stateless_bind; [|intros ?]);
    auto using stateless_ret, stateless_ndarray_getitem, stateless_tensor_getitem.
Qed.
End StatelessFacts.

Section DispatchFacts.
Context {X : Externals}.
Implicit Types (self : AudioAgent X) (s : run_state (X:=X))
  (items : list (string * Model (FS X))).

(** A stateless computation followed by one store under [key]. *)
Lemma store_record_cases (m : M (run_state (X:=X)) report_value) key s :
  stateless m ->
  (exists e, bind m (results_set key) s = (Raise e, s)) \/
  (exists v, bind m (results_set key) s = (Ok tt, (<[key := v]> (fst s), snd s))).
Proof.
  intros Hm. unfold bind. specialize (Hm s).
  destruct (m s) as [[v|e] s1]; simpl in Hm; subst s1; [right|left]; eauto.
Qed.

(** The three ways one iteration of the loop can end: it raises and has
    stored nothing, it returns and has stored nothing (a name [analyze]
    has no branch for), or it returns and has stored one value under the
    name of the model.  The world is never touched. *)
Lemma dispatch_model_cases audio_path audio model_name model s :
  (exists e, dispatch_model audio_path audio model_name model s = (Raise e, s)) \/
  dispatch_model audio_path audio model_name model s = (Ok tt, s) \/
  (exists v, dispatch_model audio_path audio model_name model s =
             (Ok tt, (<[model_name := v]> (fst s), snd s))).
Proof.
  unfold dispatch_model. destruct s as [results w].
  destruct (String.eqb model_name "emotion_detector").
  { unfold bind, in_world, fs_read, results_set. simpl.
    destruct (call_path model audio_path (w_fs w)); eauto. }
  unfold bind at 1. unfold pure_call.
  destruct (call_tensor model (model_input audio)) as [output|e]; [|eauto].
  destruct (String.eqb model_name "cough_classifier").
  { destruct (store_record_cases (classifier_record cough_classes output)
                model_name (results, w)) as [?|?];
      auto using stateless_classifier_record. }
  destruct (String.eqb model_name "breathing_analyzer").
  { destruct (store_record_cases (classifier_record breathing_classes output)
                model_name (results, w)) as [?|?];
      auto using stateless_classifier_record. }
  destruct (String.eqb model_name "voice_analyzer").
  { destruct (store_record_cases (voice_record output) model_name (results, w))
      as [?|?]; auto using stateless_voice_record. }
  right. left. reflexivity.
Qed.

(** An iteration that raises leaves [results] as it found it. *)
Lemma dispatch_model_raise audio_path audio model_name model s e s' :
  dispatch_model audio_path audio model_name model s = (Raise e, s') -> s' = s.
Proof.
  intros H.
  destruct (dispatch_model_cases audio_path audio model_name model s)
    as [[e' He]|[He|[v He]]]; congruence.
Qed.

(** An iteration leaves every key but its own as it found it. *)
Lemma dispatch_model_frame audio_path audio model_name model s r s' key :
  dispatch_model audio_path audio model_name model s = (r, s') ->
  key <> model_name -> fst s' !! key = fst s !! key.
Proof.
  intros H Hne.
  destruct (dispatch_model_cases audio_path audio model_name model s)
    as [[e' He]|[He|[v He]]]; rewrite He in H; injection H as _ <-; try reflexivity.
  simpl. now apply lookup_insert_ne.
Qed.

Lemma dispatch_loop_frame audio_path audio items :
  forall s r s' key,
    dispatch_loop audio_path audio items s = (r, s') ->
    key ∉ dict_keys items -> fst s' !! key = fst s !! key.
Proof.
  induction items as [|[n m] items IH]; intros s r s' key H Hkey; simpl in *.
  - unfold ret in H. now injection H as _ <-.
  - apply not_elem_of_cons in Hkey as [Hne Hkey]. unfold bind in H.
    destruct (dispatch_model audio_path audio n m s) as [[[]|e] s1] eqn:H1.
    + rewrite (IH _ _ _ _ H Hkey). eapply dispatch_model_frame; eauto.
    + injection H as _ <-. eapply dispatch_model_frame; eauto.
Qed.

Lemma dispatch_loop_app audio_path audio pre post s s1 :
  dispatch_loop audio_path audio pre s = (Ok tt, s1) ->
  dispatch_loop audio_path audio (pre ++ post) s = dispatch_loop audio_path audio post s1.
Proof.
  revert s. induction pre as [|[n m] pre IH]; intros s H; simpl in *.
  - unfold ret in H. now injection H as <-.
  - unfold bind in *.
    destruct (dispatch_model audio_path audio n m s) as [[[]|e] s2]; [|discriminate].
    now apply IH.
Qed.

Lemma analyze_body_front self audio_path s :
  analyze_body self audio_path s =
  bind (analyze_front self audio_path)
       (fun audio => dispatch_loop audio_path audio (models self)) s.
Proof.
  unfold analyze_body, analyze_front, bind.
  destruct (in_world (preprocess_audio self audio_path) s) as [[audio|e] s1];
    [|reflexivity].
  destruct (extract_features self audio s1) as [[features|e] s2]; [|reflexivity].
  destruct (results_set "features" (Features features) s2) as [[[]|e] s3];
    [|reflexivity].
  destruct (truthy (dict_get_default "transcribe" (VBool true) (config self))).
  - destruct (in_world (transcribe_audio self audio) s3) as [[t|e] s4]; [|reflexivity].
    destruct (results_set "transcript" (Transcript t) s4) as [[[]|e] s5]; reflexivity.
  - reflexivity.
Qed.

(** [transcribe_audio] never raises. *)
Lemma transcribe_audio_returns self audio (w : world X) :
  exists text w', transcribe_audio self audio w = (Ok text, w').
Proof.
  unfold transcribe_audio, try_except, pure_call.
  destruct (whisper_model self audio); [eauto|].
  unfold bind, logger, ret. eauto.
Qed.

(** What [results] holds when the loop starts. *)
Lemma analyze_front_results self audio_path (w : world X) audio s0 :
  analyze_front self audio_path (∅, w) = (Ok audio, s0) ->
  (exists features, fst s0 !! "features" = Some (Features features)) /\
  (truthy (dict_get_default "transcribe" (VBool true) (config self)) = true ->
   exists text, fst s0 !! "transcript" = Some (Transcript text)) /\
  (forall key, key <> "features" -> key <> "transcript" -> fst s0 !! key = None).
Proof.
  unfold analyze_front. intros H.
  apply bind_inv_ok in H as (a & [r1 w1] & Hpre & H).
  assert (r1 = ∅) as ->.
  { unfold in_world in Hpre. simpl in Hpre.
    destruct (preprocess_audio self audio_path w). now injection Hpre as _ <- _. }
  apply bind_inv_ok in H as (features & s2 & Hf & H).
  rewrite extract_features_collect in Hf. injection Hf as _ <-.
  apply bind_inv_ok in H as ([] & s3 & Hset & H).
  unfold results_set in Hset. simpl in Hset. injection Hset as <-.
  apply bind_inv_ok in H as ([] & s4 & Ht & H).
  unfold ret in H. injection H as <- <-.
  destruct (truthy (dict_get_default "transcribe" (VBool true) (config self))).
  - apply bind_inv_ok in Ht as (text & [r5 w5] & Htr & Hset).
    unfold in_world in Htr. simpl in Htr.
    destruct (transcribe_audio self a w1) as [rt wt]. injection Htr as -> <- <-.
    unfold results_set in Hset. simpl in Hset. injection Hset as <-. simpl.
    split; [|split].
    + exists features. now rewrite lookup_insert_ne, lookup_insert_eq.
    + intros _. exists text. apply lookup_insert_eq.
    + intros key H1 H2. now rewrite !lookup_insert_ne, lookup_empty.
  - unfold ret in Ht. injection Ht as <-. simpl. split; [|split].
    + exists features. apply lookup_insert_eq.
    + discriminate.
    + intros key H1 H2. now rewrite lookup_insert_ne, lookup_empty.
Qed.
End DispatchFacts.

Section DispatchTheorems.
Context {X : Externals}.
Implicit Types (self : AudioAgent X) (s : run_state (X:=X)).

(** C10: when the call of one loaded model raises [e] in the loop,
    [analyze] returns what [results] held at that point, plus [str(e)]
    under ["error"]: the features, the transcript when transcription is
    on, and, for every model that came earlier in the iteration, what its
    iteration stored; the key of the failing model and the keys of the
    models after it are absent. *)
Theorem inference_failure_report self audio_path (w : world X) audio s0
    pre model_name model post s1 e s2 :
  analyze_front self audio_path (∅, w) = (Ok audio, s0) ->
  models self = pre ++ (model_name, model) :: post ->
  NoDup (dict_keys (models self)) ->
  (forall key, key ∈ dict_keys (models self) ->
               key <> "features" /\ key <> "transcript" /\ key <> "error") ->
  dispatch_loop audio_path audio pre s0 = (Ok tt, s1) ->
  dispatch_model audio_path audio model_name model s1 = (Raise e, s2) ->
  exists report,
    fst (analyze self audio_path w) = Ok report /\
    report = <["error" := ErrorMessage (exn_str e)]> (fst s1) /\
    report !! "error" = Some (ErrorMessage (exn_str e)) /\
    (exists features, report !! "features" = Some (Features features)) /\
    (truthy (dict_get_default "transcribe" (VBool true) (config self)) = true ->
     exists text, report !! "transcript" = Some (Transcript text)) /\
    (forall pre1 key model' pre2 sa sb,
        pre = pre1 ++ (key, model') :: pre2 ->
        dispatch_loop audio_path audio pre1 s0 = (Ok tt, sa) ->
        dispatch_model audio_path audio key model' sa = (Ok tt, sb) ->
        report !! key = fst sb !! key) /\
    report !! model_name = None /\
    (forall key, key ∈ dict_keys post -> report !! key = None).
Proof.
  intros Hfront Hmodels Hnd Hreserved Hpre Hfail.
  pose proof (dispatch_model_raise _ _ _ _ _ _ _ Hfail) as ->.
  destruct (analyze_front_results _ _ _ _ _ Hfront) as (Hfeat & Htrans & Hother).
  rewrite Hmodels in Hnd, Hreserved.
  unfold dict_keys in Hnd, Hreserved. rewrite map_app in Hnd, Hreserved.
  simpl in Hnd, Hreserved.
  apply NoDup_app in Hnd as (Hnd_pre & Hdisj & Hnd_post).
  apply NoDup_cons in Hnd_post as [Hn_post _].
  assert (Hpre_reserved : forall key, key ∈ dict_keys pre ->
            key <> "features" /\ key <> "transcript" /\ key <> "error").
  { intros key Hin. apply Hreserved, elem_of_app. now left. }
  assert (Hrest : forall key, key ∈ (model_name :: dict_keys post) ->
            (key ∉ dict_keys pre) /\
            key <> "features" /\ key <> "transcript" /\ key <> "error").
  { intros key Hin. split.
    - intros Hin'. exact (Hdisj key Hin' Hin).
    - apply Hreserved, elem_of_app. now right. }
  assert (Habsent : forall key, key ∈ (model_name :: dict_keys post) ->
            (<["error" := ErrorMessage (exn_str e)]> (fst s1)) !! key = None).
  { intros key Hin. destruct (Hrest key Hin) as (Hnin & H1 & H2 & H3).
    rewrite lookup_insert_ne by congruence.
    rewrite (dispatch_loop_frame _ _ _ _ _ _ _ Hpre Hnin). now apply Hother. }
  assert (Hkept : forall key, key ∉ dict_keys pre -> key <> "error" ->
            (<["error" := ErrorMessage (exn_str e)]> (fst s1)) !! key = fst s0 !! key).
  { intros key Hnin Hne. rewrite lookup_insert_ne by congruence.
    apply (dispatch_loop_frame _ _ _ _ _ _ _ Hpre Hnin). }
  assert (Hnot_pre : forall key, key = "features" \/ key = "transcript" ->
            key ∉ dict_keys pre).
  { intros key Hkey Hin. destruct (Hpre_reserved key Hin) as (H1 & H2 & _).
    destruct Hkey; congruence. }
  eexists. split; [|split; [reflexivity|]].
  { rewrite analyze_unfold, analyze_body_front, (bind_ok _ _ _ _ _ Hfront).
    rewrite Hmodels, (dispatch_loop_app _ _ _ _ _ _ Hpre). simpl.
    rewrite (bind_raise _ _ _ _ _ Hfail). now destruct s1. }
  split; [apply lookup_insert_eq|]. split; [|split; [|split; [|split]]].
  - destruct Hfeat as [features Hfeat]. exists features.
    rewrite Hkept; [assumption| |discriminate]. apply Hnot_pre. now left.
  - intros Hon. destruct (Htrans Hon) as [text Htext]. exists text.
    rewrite Hkept; [assumption| |discriminate]. apply Hnot_pre. now right.
  - intros pre1 key model' pre2 sa sb -> Hpre1 Hstep.
    assert (Hkey : key ∈ dict_keys (pre1 ++ (key, model') :: pre2)).
    { unfold dict_keys. rewrite map_app. apply elem_of_app. right.
      apply list_elem_of_here. }
    destruct (Hpre_reserved key Hkey) as (_ & _ & Herr).
    rewrite lookup_insert_ne by congruence.
    rewrite (dispatch_loop_app _ _ _ _ _ _ Hpre1) in Hpre. simpl in Hpre.
    rewrite (bind_ok _ _ _ _ _ Hstep) in Hpre.
    apply (dispatch_loop_frame _ _ _ _ _ _ _ Hpre).
    unfold dict_keys in Hnd_pre. rewrite map_app in Hnd_pre. simpl in Hnd_pre.
    apply NoDup_app in Hnd_pre as (_ & _ & Hnd2).
    now apply NoDup_cons in Hnd2 as [? _].
  - apply Habsent, list_elem_of_here.
  - intros key Hin. apply Habsent. now apply list_elem_of_further.
Qed.
End DispatchTheorems.

(** ** The agent at work in the laboratory *)

Example endswith_wav : endswith "cough.wav" ".wav" = true.
Proof. reflexivity. Qed.

Example endswith_mp3 : endswith "cough.mp3" ".wav" = false.
Proof. reflexivity. Qed.

Example rsplit_dot_head_two_dots : rsplit_dot_head "clips/day.1.mp3" = "clips/day.1".
Proof. reflexivity. Qed.

Example rsplit_dot_head_no_dot : rsplit_dot_head "cough" = "cough".
Proof. reflexivity. Qed.

Example slice_inside : slice 1 3 [10; 20; 30; 40] = [20; 30].
Proof. reflexivity. Qed.

Example slice_past_the_end : slice 2 9 [10; 20; 30; 40] = [30; 40].
Proof. reflexivity. Qed.

(** A clip that is not a [.wav] is transcoded next to itself and read back. *)
Example preprocess_transcodes :
  preprocess_audio (lab_agent [] []) "talk.mp3"
    (World (X:=lab) [("talk.mp3", Samples [1; 0]%R)] [])
  = (Ok [1; 0]%R,
     World (X:=lab) [("talk.mp3", Samples [1; 0]%R); ("talk.wav", Samples [1; 0]%R)] []).
Proof. reflexivity. Qed.

(** With nothing but the cepstral toggle on, no transcription and no
    model, the report has the one key ["features"]. *)
Example analyze_mfcc_only :
  fst (analyze
         (lab_agent [("external_spectral_centroid", VBool false);
                     ("extract_chroma", VBool false);
                     ("extract_tempo", VBool false);
                     ("transcribe", VBool false)] [])
         "clip.wav" lab_world)
  = Ok {["features" := Features {["mfcc" := FVector []]}]}.
Proof. reflexivity. Qed.

(** With a voice analyzer and an emotion detector configured, both names
    stay out of the registry. *)
Lemma compared_models_witness :
  dict_get "voice_analyzer" (@nil (string * Model (FS lab))) = None /\
  dict_get "emotion_detector" (@nil (string * Model (FS lab))) = None.
Proof.
  apply (compared_models_are_never_registered
           (lab_agent [("models", VDict [("voice_analyzer", VDict []);
                                         ("emotion_detector", VDict [])])] [])
           lab_world []
           (World (X:=lab) lab_disk
              [(ERROR, FailedToLoad "voice_analyzer" "'voice_analyzer'");
               (ERROR, FailedToLoad "emotion_detector" "'emotion_detector'")])).
  - reflexivity.
  - reflexivity.
Defined.

(** The configuration names a voice analyzer and an emotion detector; both
    constructors return in the laboratory, and the registry stays empty. *)
Lemma voice_and_emotion_configured_not_registered :
  (exists m w, _load_voice_analyzer cpu (VDict []) lab_world = (Ok m, w)) /\
  (exists m fs, transformers_pipeline lab lab_disk = (Ok m, fs)) /\
  exists self w,
    __init__
      [("models", VDict [("voice_analyzer", VDict []); ("emotion_detector", VDict [])])]
      lab_world = (Ok self, w) /\
    models self = [].
Proof.
  split; [|split].
  - eexists _, _. reflexivity.
  - eexists _, _. reflexivity.
  - eexists _, _. split; [cbv; reflexivity | reflexivity].
Qed.

(** The cough classifier is configured with [None] and fails on
    [config.get]; the breathing analyzer before it and the voice analyzer
    after it are treated as if it had not been configured. *)
Lemma load_failure_witness :
  exists ms w',
    _load_models
      (lab_agent [("models", VDict [("breathing_analyzer", VDict []);
                                    ("cough_classifier", VNone);
                                    ("voice_analyzer", VDict [])])] [])
      lab_world = (Ok ms, w') /\
    dict_get "cough_classifier" ms = None /\
    fst (_load_models
           (set_config
              (lab_agent [("models", VDict [("breathing_analyzer", VDict []);
                                            ("cough_classifier", VNone);
                                            ("voice_analyzer", VDict [])])] [])
              (dict_set "models"
                 (VDict ([("breathing_analyzer", VDict [])] ++ [("voice_analyzer", VDict [])]))
                 [("models", VDict [("breathing_analyzer", VDict []);
                                    ("cough_classifier", VNone);
                                    ("voice_analyzer", VDict [])])]))
           lab_world) = Ok ms.
Proof.
  eapply (load_failure_is_isolated
            (lab_agent [("models", VDict [("breathing_analyzer", VDict []);
                                          ("cough_classifier", VNone);
                                          ("voice_analyzer", VDict [])])] [])
            [("breathing_analyzer", VDict [])] "cough_classifier" VNone
            [("voice_analyzer", VDict [])] lab_world).
  - reflexivity.
  - reflexivity.
  - apply (bool_decide_unpack _). reflexivity.
  - reflexivity.
  - reflexivity.
Defined.

(** C4, a counterexample: the configuration gives [n_mfcc] as the text
    ["13"]; [librosa.feature.mfcc] cannot slice its coefficients with it and
    raises, and with it [extract_features], all toggles being on. *)
Lemma extract_features_raises_on_text_n_mfcc :
  truthy (dict_get_default "extract_mfcc" (VBool true) [("n_mfcc", VStr "13")]) = true /\
  librosa_feature_mfcc lab [1; 0]%R (VInt 16000) (VStr "13") = Raise not_an_index /\
  extract_features (lab_agent [("n_mfcc", VStr "13")] []) [1; 0]%R tt
  = (Raise not_an_index, tt).
Proof. repeat split; reflexivity. Qed.

(** C5, a counterexample: the toggle [extract_spectral_centroid] is off and
    the key ["spectral_centroid"] is there; the toggle [extract_chroma] is
    on, its extraction succeeded, and there is no key ["chroma_energy"]. *)
Lemma feature_keys_counterexample :
  exists features,
    extract_features (lab_agent [("extract_spectral_centroid", VBool false)] [])
      [1; 0]%R tt = (Ok features, tt) /\
    truthy (dict_get_default "extract_spectral_centroid" (VBool true)
              [("extract_spectral_centroid", VBool false)]) = false /\
    is_Some (features !! "spectral_centroid") /\
    truthy (dict_get_default "extract_chroma" (VBool true)
              [("extract_spectral_centroid", VBool false)]) = true /\
    librosa_feature_chroma_stft lab [1; 0]%R (VInt 16000) = Ok [] /\
    features !! "chroma_energy" = None.
Proof.
  eexists. split; [reflexivity|].
  split; [reflexivity|]. split; [eexists; reflexivity|].
  split; [reflexivity|]. split; reflexivity.
Qed.

(** With the tempo toggle off: three keys follow their toggles, no tempo. *)
Lemma feature_keys_witness :
  exists features,
    extract_features (lab_agent [("extract_tempo", VBool false)] []) [1; 0]%R tt
    = (Ok features, tt) /\
    (is_Some (features !! "mfcc") <->
       truthy (dict_get_default "extract_mfcc" (VBool true)
                 [("extract_tempo", VBool false)]) = true) /\
    (is_Some (features !! "tempo") <->
       truthy (dict_get_default "extract_tempo" (VBool true)
                 [("extract_tempo", VBool false)]) = true) /\
    (is_Some (features !! "bandwidth") <->
       truthy (dict_get_default "extract_chroma" (VBool true)
                 [("extract_tempo", VBool false)]) = true) /\
    features !! "chroma_energy" = None.
Proof.
  eexists. split; [reflexivity|].
  pose proof (feature_keys_follow_toggles
                (lab_agent [("extract_tempo", VBool false)] []) [1; 0]%R tt tt _ eq_refl)
    as (H1 & H2 & H3 & H4 & _).
  exact (conj H1 (conj H2 (conj H3 H4))).
Defined.

(** C6, a counterexample: a file that no decoder accepts makes
    [librosa.load] raise an exception without a message; the report is
    [{"error": ""}]. *)
Lemma decode_failure_with_empty_message :
  preprocess_audio (lab_agent [] []) "corrupt.wav" lab_world
  = (Raise (Exn "NoBackendError" ""),
     World (X:=lab) lab_disk [(ERROR, ErrorPreprocessing "corrupt.wav" "")]) /\
  fst (analyze (lab_agent [] []) "corrupt.wav" lab_world)
  = Ok {["error" := ErrorMessage ""]}.
Proof. split; reflexivity. Qed.

(** A file that does not exist: the report is the message of the exception. *)
Lemma decode_failure_witness :
  fst (analyze (lab_agent [] []) "missing.mp3" lab_world)
  = Ok {["error" :=
           ErrorMessage "[Errno 2] No such file or directory: 'missing.mp3'"]}.
Proof.
  apply (decode_failure_report (lab_agent [] []) "missing.mp3" lab_world
           (FileNotFoundError "missing.mp3")
           (World (X:=lab) lab_disk
              [(ERROR, ErrorPreprocessing "missing.mp3"
                         "[Errno 2] No such file or directory: 'missing.mp3'")])).
  reflexivity.
Defined.

(** The record of a cough classifier that answers four equal logits. *)
Lemma classifier_record_witness :
  exists idx prediction confidence probabilities,
    dispatch_model (X:=lab) "clip.wav" [1; 0]%R "cough_classifier"
      (lab_module (lab_logits CoughClassifier)) (∅, lab_world)
    = (Ok tt,
       (<["cough_classifier" := Classification prediction confidence probabilities]> ∅,
        lab_world)) /\
    dict_keys probabilities = cough_classes /\
    (Rabs (Rsum (map snd probabilities) - 1) <= 1e-5)%R /\
    probabilities !! idx = Some (prediction, confidence) /\
    (forall j label p, probabilities !! j = Some (label, p) -> (p <= confidence)%R) /\
    (forall j label p, j < idx -> probabilities !! j = Some (label, p) ->
                       (p < confidence)%R).
Proof.
  apply (classifier_record_is_distribution (X:=lab) "clip.wav" [1; 0]%R
           "cough_classifier" cough_classes (lab_module (lab_logits CoughClassifier))
           ∅ lab_world [lab_logits CoughClassifier] (lab_logits CoughClassifier)).
  - left. split; reflexivity.
  - reflexivity.
  - reflexivity.
  - reflexivity.
Defined.

(** The emotion detector answers, the cough classifier raises, the
    breathing analyzer is never called. *)
Lemma inference_failure_witness :
  exists report,
    fst (analyze lab_agent_three "clip.wav" lab_world) = Ok report /\
    report !! "error"
      = Some (ErrorMessage "mat1 and mat2 shapes cannot be multiplied") /\
    (exists features, report !! "features" = Some (Features features)) /\
    (exists text, report !! "transcript" = Some (Transcript text)) /\
    report !! "emotion_detector" = Some (Emotion [("neutral", 1%R)]) /\
    report !! "cough_classifier" = None /\
    report !! "breathing_analyzer" = None.
Proof.
  destruct (inference_failure_report lab_agent_three "clip.wav" lab_world [1; 0]%R
              (snd (analyze_front lab_agent_three "clip.wav" (∅, lab_world)))
              [("emotion_detector", lab_pipeline)]
              "cough_classifier" lab_broken_module
              [("breathing_analyzer", lab_module (lab_logits BreathingAnalyzer))]
              (snd (dispatch_loop (X:=lab) "clip.wav" [1; 0]%R
                      [("emotion_detector", lab_pipeline)]
                      (snd (analyze_front lab_agent_three "clip.wav" (∅, lab_world)))))
              (Exn "RuntimeError" "mat1 and mat2 shapes cannot be multiplied")
              (snd (dispatch_loop (X:=lab) "clip.wav" [1; 0]%R
                      [("emotion_detector", lab_pipeline)]
                      (snd (analyze_front lab_agent_three "clip.wav" (∅, lab_world))))))
    as (report & Hret & _ & Herr & Hfeat & Htrans & Hearlier & Hfailing & Hlater).
  - reflexivity.
  - reflexivity.
  - apply (bool_decide_unpack _). reflexivity.
  - intros key Hkey.
    repeat (apply elem_of_cons in Hkey as [->|Hkey];
            [repeat split; discriminate|]).
    now apply elem_of_nil in Hkey.
  - reflexivity.
  - reflexivity.
  - exists report. split; [exact Hret|]. split; [exact Herr|].
    split; [exact Hfeat|]. split; [exact (Htrans eq_refl)|].
    split; [|split; [exact Hfailing|]].
    + rewrite (Hearlier [] "emotion_detector" lab_pipeline []
                 (snd (analyze_front lab_agent_three "clip.wav" (∅, lab_world)))
                 (snd (dispatch_loop (X:=lab) "clip.wav" [1; 0]%R
                         [("emotion_detector", lab_pipeline)]
                         (snd (analyze_front lab_agent_three "clip.wav" (∅, lab_world)))))
                 eq_refl eq_refl eq_refl).
      reflexivity.
    + apply Hlater. apply list_elem_of_here.
Defined.

(** * Further properties *)

(** ** Paths *)

Lemma length_append (s t : string) :
  String.length (s +:+ t) = String.length s + String.length t.
Proof. induction s as [|c s IH]; simpl; [reflexivity | now rewrite IH]. Qed.

Lemma substring_all (s : string) : String.substring 0 (String.length s) s = s.
Proof. induction s as [|c s IH]; simpl; [reflexivity | now rewrite IH]. Qed.

Lemma substring_append_r (s t : string) :
  String.substring (String.length s) (String.length t) (s +:+ t) = t.
Proof. induction s as [|c s IH]; simpl; [apply substring_all | exact IH]. Qed.

Lemma endswith_append (s suffix : string) : endswith (s +:+ suffix) suffix = true.
Proof.
  unfold endswith. rewrite length_append.
  replace (String.length s + String.length suffix - String.length suffix)
    with (String.length s) by lia.
  rewrite substring_append_r, String.eqb_refl.
  apply andb_true_iff. split; [apply Nat.leb_le; lia | reflexivity].
Qed.

Lemma before_last_dot_append (stem ext : string) :
  before_last_dot ext = None ->
  before_last_dot (stem +:+ "." +:+ ext) = Some stem.
Proof.
  intros Hext. induction stem as [|c stem IH].
  - change (before_last_dot (String "."%char ext) = Some EmptyString).
    cbn [before_last_dot]. now rewrite Hext.
  - change (before_last_dot (String c (stem +:+ "." +:+ ext)) = Some (String c stem)).
    cbn [before_last_dot]. now rewrite IH.
Qed.

(** ** What a computation leaves alone *)

Section PreservesFacts.
Context {S T : Type} (f : S -> T).

Lemma preserves_ret {A} (a : A) : preserves f (ret a).
Proof. intros s. reflexivity. Qed.

Lemma preserves_raise {A} e : preserves f (@raise S A e).
Proof. intros s. reflexivity. Qed.

Lemma preserves_pure_call {A} (r : result A) : preserves f (pure_call r).
Proof. intros s. reflexivity. Qed.

Lemma preserves_bind {A B} (m : M S A) (k : A -> M S B) :
  preserves f m -> (forall a, preserves f (k a)) -> preserves f (bind m k).
Proof.
  intros Hm Hk s. unfold bind. specialize (Hm s).
  destruct (m s) as [[a|e] s1]; simpl in *; [|assumption].
  now rewrite (Hk a s1).
Qed.

Lemma preserves_try_except {A} (m : M S A) h :
  preserves f m -> (forall e, preserves f (h e)) -> preserves f (try_except m h).
Proof.
  intros Hm Hh s. unfold try_except. specialize (Hm s).
  destruct (m s) as [[a|e] s1]; simpl in *; [assumption|].
  now rewrite (Hh e s1).
Qed.

Lemma preserves_if {A} (b : bool) (m1 m2 : M S A) :
  preserves f m1 -> preserves f m2 -> preserves f (if b then m1 else m2).
Proof. now destruct b. Qed.

Lemma preserves_stateless {A} (m : M S A) : stateless m -> preserves f m.
Proof. intros Hm s. now rewrite (Hm s). Qed.
End PreservesFacts.

Create HintDb keeps.
#[export] Hint Resolve preserves_ret preserves_raise preserves_pure_call preserves_bind
  preserves_try_except preserves_if : keeps.

Section FileSystemFacts.
Context {X : Externals}.
Implicit Types (self : AudioAgent X) (w : world X).

Lemma preserves_logger lv msg : preserves (w_fs (X:=X)) (logger lv msg).
Proof. intros w. reflexivity. Qed.

Lemma preserves_fs_read {A} (g : FS X -> result A) : preserves (w_fs (X:=X)) (fs_read g).
Proof. intros w. reflexivity. Qed.

Lemma preserves_in_world {A} (m : M (world X) A) :
  preserves (w_fs (X:=X)) m ->
  preserves (fun s : run_state (X:=X) => w_fs (snd s)) (in_world m).
Proof.
  intros Hm [results w]. unfold in_world. simpl. specialize (Hm w).
  now destruct (m w).
Qed.

Lemma preserves_results_set key v :
  preserves (fun s : run_state (X:=X) => w_fs (snd s)) (results_set key v).
Proof. intros s. reflexivity. Qed.

Lemma stateless_extract_features {S} self audio :
  stateless (@extract_features X S self audio).
Proof. intros s. now rewrite extract_features_collect. Qed.

Lemma preserves_log_and_reraise {A} path e :
  preserves (w_fs (X:=X)) (@log_and_reraise X A path e).
Proof. unfold log_and_reraise. auto using preserves_logger with keeps. Qed.

Lemma preserves_load_and_clean self path :
  preserves (w_fs (X:=X)) (load_and_clean self path).
Proof.
  unfold load_and_clean, np_concatenate.
  apply preserves_bind; [apply preserves_fs_read|]. intros a.
  apply preserves_bind; [auto with keeps|]. intros a'.
  apply preserves_if; [|auto with keeps].
  apply preserves_bind; [auto with keeps|]. intros ivs.
  destruct (map _ ivs); auto with keeps.
Qed.

Lemma preserves_transcribe_audio self audio :
  preserves (w_fs (X:=X)) (transcribe_audio self audio).
Proof. unfold transcribe_audio. auto 10 using preserves_logger with keeps. Qed.

(** The loop over the models leaves the world alone: a model is only called. *)
Lemma dispatch_loop_world audio_path audio (items : list (string * Model (FS X))) :
  forall s, snd (snd (dispatch_loop audio_path audio items s)) = snd s.
Proof.
  induction items as [|[n m] items IH]; intros s; simpl; [reflexivity|].
  unfold bind.
  destruct (dispatch_model_cases audio_path audio n m s) as [[e He]|[He|[v He]]];
    rewrite He; [reflexivity | apply IH | now rewrite IH].
Qed.

Lemma preserves_dispatch_loop audio_path audio (items : list (string * Model (FS X))) :
  preserves (fun s : run_state (X:=X) => w_fs (snd s))
    (dispatch_loop audio_path audio items).
Proof. intros s. now rewrite dispatch_loop_world. Qed.

(** [analyze_body] is the conversion to a wave file followed by
    [analyze_rest]. *)
Lemma analyze_body_rest self audio_path results w :
  analyze_body self audio_path (results, w) =
  match try_except (convert_to_wav audio_path) (log_and_reraise audio_path) w with
  | (Ok wav_path, w1) => analyze_rest self audio_path wav_path (results, w1)
  | (Raise e, w1) => (Raise e, (results, w1))
  end.
Proof.
  unfold analyze_body, analyze_rest, preprocess_audio.
  destruct (try_except (convert_to_wav audio_path) (log_and_reraise audio_path) w)
    as [[p|e] w1] eqn:Hconv.
  - destruct (try_except (load_and_clean self p) (log_and_reraise p) w1)
      as [[a|e] w2] eqn:Hload.
    + rewrite (bind_ok _ _ (results, w) a (results, w2)).
      * now rewrite (bind_ok _ _ (results, w1) a (results, w2))
          by (apply in_world_ok; exact Hload).
      * apply in_world_ok. now rewrite (bind_ok _ _ _ _ _ Hconv).
    + rewrite (bind_raise _ _ (results, w) e (results, w2)).
      * now rewrite (bind_raise _ _ (results, w1) e (results, w2))
          by (apply in_world_raise; exact Hload).
      * apply in_world_raise. now rewrite (bind_ok _ _ _ _ _ Hconv).
  - apply bind_raise. apply in_world_raise. now apply bind_raise.
Qed.

Lemma preserves_analyze_rest self audio_path wav_path :
  preserves (fun s : run_state (X:=X) => w_fs (snd s))
    (analyze_rest self audio_path wav_path).
Proof.
  unfold analyze_rest.
  apply preserves_bind.
  { apply preserves_in_world.
    auto using preserves_load_and_clean, preserves_log_and_reraise with keeps. }
  intros a. apply preserves_bind.
  { apply preserves_stateless, stateless_extract_features. }
  intros features. apply preserves_bind; [apply preserves_results_set|]. intros _.
  apply preserves_bind; [|intros _; apply preserves_dispatch_loop].
  apply preserves_if; [|auto with keeps].
  apply preserves_bind;
    [apply preserves_in_world, preserves_transcribe_audio|].
  intros t. apply preserves_results_set.
Qed.

Lemma preserves_analyze_handler e :
  preserves (fun s : run_state (X:=X) => w_fs (snd s)) (analyze_handler e).
Proof.
  unfold analyze_handler. apply preserves_bind.
  - apply preserves_in_world, preserves_logger.
  - intros _. apply preserves_results_set.
Qed.

(** After the conversion to a wave file, [analyze] only reads the file
    system. *)
Lemma analyze_fs self audio_path w :
  w_fs (snd (analyze self audio_path w))
  = w_fs (snd (try_except (convert_to_wav audio_path)
                 (log_and_reraise audio_path) w)).
Proof.
  assert (Hrun : w_fs (snd (analyze self audio_path w)) =
                 w_fs (snd (snd (try_except (analyze_body self audio_path)
                                   analyze_handler (∅, w))))).
  { unfold analyze.
    destruct (try_except (analyze_body self audio_path) analyze_handler (∅, w))
      as [[[]|e] [r w']]; reflexivity. }
  rewrite Hrun. unfold try_except at 1. rewrite analyze_body_rest.
  destruct (try_except (convert_to_wav audio_path) (log_and_reraise audio_path) w)
    as [[p|e] w1]; simpl.
  - pose proof (preserves_analyze_rest self audio_path p (∅, w1)) as Hrest.
    destruct (analyze_rest self audio_path p (∅, w1)) as [[[]|e] s1]; simpl in *.
    + assumption.
    + pose proof (preserves_analyze_handler e s1) as Hh. simpl in Hh. congruence.
  - reflexivity.
Qed.
End FileSystemFacts.

(** ** Preprocessing: paths and files *)

Section PathTheorems.
Context {X : Externals}.
Implicit Types (self : AudioAgent X) (w : world X).

Lemma convert_to_wav_wav audio_path w :
  endswith audio_path ".wav" = true ->
  try_except (convert_to_wav audio_path) (log_and_reraise audio_path) w
  = (Ok audio_path, w).
Proof. intros H. unfold try_except, convert_to_wav. now rewrite H. Qed.

Lemma convert_to_wav_other audio_path w segment :
  endswith audio_path ".wav" = false ->
  AudioSegment_from_file X audio_path (w_fs w) = Ok segment ->
  w_fs (snd (try_except (convert_to_wav audio_path) (log_and_reraise audio_path) w))
  = snd (AudioSegment_export X segment (rsplit_dot_head audio_path +:+ ".wav") (w_fs w)).
Proof.
  intros Hext Hfrom. unfold try_except, convert_to_wav. rewrite Hext. simpl.
  unfold bind at 1. unfold fs_read. rewrite Hfrom.
  unfold bind, fs_update.
  destruct (AudioSegment_export X segment (rsplit_dot_head audio_path +:+ ".wav") (w_fs w))
    as [[[]|e] fs']; reflexivity.
Qed.

(** X1: on a path that ends in [.wav], [analyze] never writes the file
    system, whatever happens during the analysis. *)
Theorem analyze_reads_wav_only self audio_path w :
  endswith audio_path ".wav" = true ->
  w_fs (snd (analyze self audio_path w)) = w_fs w.
Proof.
  intros H. rewrite analyze_fs. now rewrite (convert_to_wav_wav _ _ H).
Qed.

(** X2: on any other path that pydub can decode, what [analyze] leaves on
    the file system is what the export to [<stem>.wav] left: the
    transcoded file is never removed, whether the analysis succeeds or not. *)
Theorem transcoded_file_is_left_behind self audio_path w segment :
  endswith audio_path ".wav" = false ->
  AudioSegment_from_file X audio_path (w_fs w) = Ok segment ->
  w_fs (snd (analyze self audio_path w))
  = snd (AudioSegment_export X segment (rsplit_dot_head audio_path +:+ ".wav") (w_fs w)).
Proof.
  intros Hext Hfrom. rewrite analyze_fs. now apply convert_to_wav_other.
Qed.

(** X3: a clip [<stem>.<ext>] whose extension has no dot and which pydub
    transcodes is preprocessed as the wave file [<stem>.wav] is, in the
    world where the export has written it. *)
Theorem transcoded_clip_is_read_back self (stem ext : string) w segment fs' :
  endswith (stem +:+ "." +:+ ext) ".wav" = false ->
  before_last_dot ext = None ->
  AudioSegment_from_file X (stem +:+ "." +:+ ext) (w_fs w) = Ok segment ->
  AudioSegment_export X segment (stem +:+ ".wav") (w_fs w) = (Ok tt, fs') ->
  preprocess_audio self (stem +:+ "." +:+ ext) w
  = preprocess_audio self (stem +:+ ".wav") (World fs' (w_log w)).
Proof.
  intros Hext Hdot Hfrom Hexport. unfold preprocess_audio.
  assert (Hleft : try_except (convert_to_wav (stem +:+ "." +:+ ext))
                    (log_and_reraise (stem +:+ "." +:+ ext)) w
                  = (Ok (stem +:+ ".wav"), World fs' (w_log w))).
  { apply try_except_ok. unfold convert_to_wav. rewrite Hext. cbn [negb].
    rewrite (bind_ok _ _ w segment w) by (unfold fs_read; now rewrite Hfrom).
    unfold rsplit_dot_head. rewrite (before_last_dot_append stem ext Hdot).
    rewrite (bind_ok _ _ w tt (World fs' (w_log w)))
      by (unfold fs_update; now rewrite Hexport).
    reflexivity. }
  rewrite (bind_ok _ _ _ _ _ Hleft).
  now rewrite (bind_ok _ _ _ _ _
                 (convert_to_wav_wav (stem +:+ ".wav") (World fs' (w_log w))
                    (endswith_append stem ".wav"))).
Qed.
End PathTheorems.

Lemma analyze_reads_wav_only_witness :
  w_fs (snd (analyze lab_agent_three "clip.wav" lab_world)) = lab_disk.
Proof. apply (analyze_reads_wav_only lab_agent_three "clip.wav" lab_world). reflexivity. Defined.

Lemma transcoded_file_is_left_behind_witness :
  w_fs (snd (analyze (lab_agent [] []) "talk.mp3"
               (World (X:=lab) [("talk.mp3", Samples [1; 0]%R)] [])))
  = [("talk.mp3", Samples [1; 0]%R); ("talk.wav", Samples [1; 0]%R)].
Proof.
  apply (transcoded_file_is_left_behind (lab_agent [] []) "talk.mp3"
           (World (X:=lab) [("talk.mp3", Samples [1; 0]%R)] []) [1; 0]%R);
    reflexivity.
Defined.

Lemma transcoded_clip_is_read_back_witness :
  preprocess_audio (lab_agent [] []) "talk.mp3"
    (World (X:=lab) [("talk.mp3", Samples [1; 0]%R)] [])
  = preprocess_audio (lab_agent [] []) "talk.wav"
      (World (X:=lab) [("talk.mp3", Samples [1; 0]%R); ("talk.wav", Samples [1; 0]%R)] []).
Proof.
  apply (transcoded_clip_is_read_back (lab_agent [] []) "talk" "mp3"
           (World (X:=lab) [("talk.mp3", Samples [1; 0]%R)] []) [1; 0]%R);
    reflexivity.
Defined.

(** ** Preprocessing: the silence filter *)

Section SilenceTheorems.
Context {X : Externals}.
Implicit Types (self : AudioAgent X) (w : world X).

(** On a wave file, with [remove_silence] on, all that is left to do once
    the intervals are known is the concatenation. *)
Lemma preprocess_with_intervals self audio_path w (loaded cleaned : list R)
    (intervals : list (nat * nat)) :
  endswith audio_path ".wav" = true ->
  truthy (dict_get_default "remove_silence" (VBool false) (config self)) = true ->
  librosa_load X audio_path (sample_rate self) (w_fs w) = Ok loaded ->
  (if truthy (dict_get_default "normalize" (VBool true) (config self))
   then librosa_util_normalize X loaded else Ok loaded) = Ok cleaned ->
  librosa_effects_split X cleaned (silence_top_db (config self)) = Ok intervals ->
  preprocess_audio self audio_path w
  = try_except
      (np_concatenate (map (fun '(start, stop) => slice start stop cleaned) intervals))
      (log_and_reraise audio_path) w.
Proof.
  intros Hwav Hon Hload Hnorm Hsplit. unfold preprocess_audio.
  rewrite (bind_ok _ _ _ _ _ (convert_to_wav_wav audio_path w Hwav)).
  unfold try_except, load_and_clean. rewrite Hon.
  rewrite (bind_ok _ _ w loaded w) by (unfold fs_read; now rewrite Hload).
  assert (Hclean :
    (if truthy (dict_get_default "normalize" (VBool true) (config self))
     then pure_call (librosa_util_normalize X loaded) else ret loaded) w
    = (Ok cleaned, w)).
  { destruct (truthy (dict_get_default "normalize" (VBool true) (config self)));
      unfold pure_call, ret; now rewrite ?Hnorm; try injection Hnorm as ->. }
  rewrite (bind_ok _ _ _ _ _ Hclean).
  rewrite (bind_ok _ _ w intervals w) by (unfold pure_call; now rewrite Hsplit).
  reflexivity.
Qed.

(** X4: a clip in which [librosa.effects.split] finds no sound at all is
    not returned empty: [np.concatenate] refuses the empty list,
    [preprocess_audio] raises, and the report of [analyze] is the error
    alone. *)
Theorem silent_clip_is_an_error self audio_path w (loaded cleaned : list R) :
  endswith audio_path ".wav" = true ->
  truthy (dict_get_default "remove_silence" (VBool false) (config self)) = true ->
  librosa_load X audio_path (sample_rate self) (w_fs w) = Ok loaded ->
  (if truthy (dict_get_default "normalize" (VBool true) (config self))
   then librosa_util_normalize X loaded else Ok loaded) = Ok cleaned ->
  librosa_effects_split X cleaned (silence_top_db (config self)) = Ok [] ->
  fst (preprocess_audio self audio_path w)
  = Raise (ValueError "need at least one array to concatenate") /\
  fst (analyze self audio_path w)
  = Ok {["error" := ErrorMessage "need at least one array to concatenate"]}.
Proof.
  intros Hwav Hon Hload Hnorm Hsplit.
  pose proof (preprocess_with_intervals self audio_path w loaded cleaned []
                Hwav Hon Hload Hnorm Hsplit) as Hpre.
  simpl in Hpre. unfold try_except, np_concatenate, raise in Hpre.
  unfold log_and_reraise, bind, logger, raise in Hpre.
  split; [now rewrite Hpre|].
  rewrite analyze_unfold. unfold analyze_body.
  rewrite (bind_raise _ _ _ _ _ (in_world_raise _ ∅ _ _ _ Hpre)).
  simpl. now rewrite insert_empty.
Qed.

Lemma slices_sublist (a : list R) (intervals : list (nat * nat)) :
  forall lo,
    ordered_intervals lo intervals ->
    concat (map (fun '(start, stop) => slice start stop a) intervals)
      `sublist_of` drop lo a.
Proof.
  induction intervals as [|[start stop] rest IH]; intros lo Hord; simpl.
  - apply sublist_nil_l.
  - destruct Hord as (Hlo & Hle & Hrest).
    transitivity (drop start a).
    + unfold slice. rewrite <- (take_drop (stop - start) (drop start a)) at 2.
      apply sublist_app; [reflexivity|]. rewrite drop_drop.
      replace (start + (stop - start)) with stop by lia. now apply IH.
    + replace start with (lo + (start - lo)) by lia.
      rewrite <- drop_drop. apply sublist_drop.
Qed.

(** X5: with [remove_silence] on, when the intervals are listed from left
    to right without overlap, the output is the cleaned clip with samples
    removed: a subsequence of it, and no longer than it. *)
Theorem remove_silence_only_removes self audio_path w (loaded cleaned : list R)
    (intervals : list (nat * nat)) :
  endswith audio_path ".wav" = true ->
  truthy (dict_get_default "remove_silence" (VBool false) (config self)) = true ->
  librosa_load X audio_path (sample_rate self) (w_fs w) = Ok loaded ->
  (if truthy (dict_get_default "normalize" (VBool true) (config self))
   then librosa_util_normalize X loaded else Ok loaded) = Ok cleaned ->
  librosa_effects_split X cleaned (silence_top_db (config self)) = Ok intervals ->
  intervals <> [] ->
  ordered_intervals 0 intervals ->
  exists output,
    preprocess_audio self audio_path w = (Ok output, w) /\
    output `sublist_of` cleaned /\
    length output <= length cleaned.
Proof.
  intros Hwav Hon Hload Hnorm Hsplit Hne Hord.
  exists (concat (map (fun '(start, stop) => slice start stop cleaned) intervals)).
  assert (Hsub : concat (map (fun '(start, stop) => slice start stop cleaned) intervals)
                   `sublist_of` cleaned).
  { apply (slices_sublist cleaned intervals 0 Hord). }
  split; [|split; [exact Hsub | now apply sublist_length]].
  rewrite (preprocess_with_intervals self audio_path w loaded cleaned intervals
             Hwav Hon Hload Hnorm Hsplit).
  destruct intervals; [congruence|]. reflexivity.
Qed.
End SilenceTheorems.

Lemma silent_clip_is_an_error_witness :
  fst (preprocess_audio (lab_filtering_agent lab_quiet) "five.wav"
         (World (X:=lab_quiet) lab_disk_five []))
  = Raise (ValueError "need at least one array to concatenate") /\
  fst (analyze (lab_filtering_agent lab_quiet) "five.wav"
         (World (X:=lab_quiet) lab_disk_five []))
  = Ok {["error" := ErrorMessage "need at least one array to concatenate"]}.
Proof.
  apply (silent_clip_is_an_error (lab_filtering_agent lab_quiet) "five.wav"
           (World (X:=lab_quiet) lab_disk_five [])
           [1; 2; 3; 4; 5]%R [1; 2; 3; 4; 5]%R); reflexivity.
Defined.

Lemma remove_silence_only_removes_witness :
  exists output,
    preprocess_audio (lab_filtering_agent lab_two_stretches) "five.wav"
      (World (X:=lab_two_stretches) lab_disk_five [])
    = (Ok output, World (X:=lab_two_stretches) lab_disk_five []) /\
    output `sublist_of` [1; 2; 3; 4; 5]%R /\
    length output <= 5.
Proof.
  apply (remove_silence_only_removes (lab_filtering_agent lab_two_stretches) "five.wav"
           (World (X:=lab_two_stretches) lab_disk_five [])
           [1; 2; 3; 4; 5]%R [1; 2; 3; 4; 5]%R [(0, 1); (2, 4)]);
    try reflexivity.
  - discriminate.
  - simpl. lia.
Defined.

(** The two stretches, one after the other. *)
Example remove_silence_two_stretches :
  fst (preprocess_audio (lab_filtering_agent lab_two_stretches) "five.wav"
         (World (X:=lab_two_stretches) lab_disk_five []))
  = Ok [1; 3; 4]%R.
Proof. reflexivity. Qed.

(** ** The configuration keys that matter *)

Section ConfigTheorems.
Context {X : Externals}.
Implicit Types (self : AudioAgent X) (w : world X).

(** X6: [analyze] reads the configuration under nine keys only; writing
    any other key of the configuration of a constructed agent, such as
    [extract_spectral_centroid], [silence_threshold_db], [sample_rate] or
    [models], changes neither the report nor the world [analyze] leaves. *)
Theorem analyze_ignores_other_keys self (key : string) (v : value)
    (audio_path : string) w :
  key ∉ analyze_config_keys ->
  analyze (set_config self (dict_set key v (config self))) audio_path w
  = analyze self audio_path w.
Proof.
  intros Hkey.
  assert (Hne : forall read, In read analyze_config_keys -> read <> key).
  { intros read Hin ->. apply Hkey. now apply list_elem_of_In. }
  unfold analyze, analyze_body, preprocess_audio, load_and_clean, extract_features,
    transcribe_audio, silence_top_db, set_config.
  cbn [config sample_rate models whisper_model device].
  rewrite !dict_get_default_set_ne by (apply Hne; simpl; tauto).
  reflexivity.
Qed.
End ConfigTheorems.

Lemma analyze_ignores_other_keys_witness :
  analyze (set_config (lab_filtering_agent lab_two_stretches)
             (dict_set "extract_spectral_centroid" (VBool false)
                [("remove_silence", VBool true)]))
    "five.wav" (World (X:=lab_two_stretches) lab_disk_five [])
  = analyze (lab_filtering_agent lab_two_stretches) "five.wav"
      (World (X:=lab_two_stretches) lab_disk_five []).
Proof.
  apply (analyze_ignores_other_keys (lab_filtering_agent lab_two_stretches)
           "extract_spectral_centroid" (VBool false) "five.wav"
           (World (X:=lab_two_stretches) lab_disk_five [])).
  apply (bool_decide_unpack _). reflexivity.
Defined.

(** ** The keys of the report *)

Section ReportTheorems.
Context {X : Externals}.
Implicit Types (self : AudioAgent X) (w : world X).

(** When a stage before the loop raises, [results] is still empty. *)
Lemma analyze_front_raise self audio_path w e s :
  analyze_front self audio_path (∅, w) = (Raise e, s) -> fst s = ∅.
Proof.
  unfold analyze_front. intros H.
  apply bind_inv_raise in H as [H|(a & [r1 w1] & Hpre & H)].
  { unfold in_world in H. simpl in H.
    destruct (preprocess_audio self audio_path w). now injection H as _ <-. }
  assert (r1 = ∅) as ->.
  { unfold in_world in Hpre. simpl in Hpre.
    destruct (preprocess_audio self audio_path w). now injection Hpre as _ <- _. }
  apply bind_inv_raise in H as [H|(features & s2 & Hf & H)].
  { rewrite extract_features_collect in H. now injection H as _ <-. }
  rewrite extract_features_collect in Hf. injection Hf as _ <-.
  apply bind_inv_raise in H as [H|([] & s3 & Hset & H)]; [discriminate|].
  apply bind_inv_raise in H as [H|([] & s4 & _ & H)]; [|discriminate].
  destruct (truthy (dict_get_default "transcribe" (VBool true) (config self)));
    [|discriminate].
  apply bind_inv_raise in H as [H|(t & s5 & _ & H)]; [|discriminate].
  unfold in_world in H.
  destruct (transcribe_audio_returns self a (snd s3)) as (text & w' & Ht).
  rewrite Ht in H. discriminate.
Qed.

(** The keys [results] holds when the body of the [try] ends, either way. *)
Lemma analyze_body_keys self audio_path w r s key :
  analyze_body self audio_path (∅, w) = (r, s) ->
  is_Some (fst s !! key) ->
  key = "features" \/ key = "transcript" \/ key ∈ dict_keys (models self).
Proof.
  rewrite analyze_body_front. unfold bind. intros H Hsome.
  destruct (analyze_front self audio_path (∅, w)) as [[a|e] s0] eqn:Hfront.
  - destruct (decide (key ∈ dict_keys (models self))) as [|Hnin]; [auto|].
    rewrite (dispatch_loop_frame _ _ _ _ _ _ _ H Hnin) in Hsome.
    destruct (analyze_front_results _ _ _ _ _ Hfront) as (_ & _ & Hother).
    destruct (decide (key = "features")) as [|H1]; [auto|].
    destruct (decide (key = "transcript")) as [|H2]; [auto|].
    rewrite (Hother key H1 H2) in Hsome. now destruct Hsome.
  - injection H as _ <-. rewrite (analyze_front_raise _ _ _ _ _ Hfront) in Hsome.
    rewrite lookup_empty in Hsome. now destruct Hsome.
Qed.

(** X7: every key of the report is ["features"], ["transcript"],
    ["error"] or the name of a model of the registry: a model that is not
    loaded never shows in a report. *)
Theorem report_keys_are_known self audio_path w report w' key :
  analyze self audio_path w = (Ok report, w') ->
  is_Some (report !! key) ->
  key = "features" \/ key = "transcript" \/ key = "error" \/
  key ∈ dict_keys (models self).
Proof.
  rewrite analyze_unfold. intros H Hsome.
  destruct (analyze_body self audio_path (∅, w)) as [[[]|e] [results w1]] eqn:Hbody;
    injection H as <- _.
  - destruct (analyze_body_keys _ _ _ _ _ key Hbody Hsome) as [?|[?|?]]; auto.
  - destruct (decide (key = "error")) as [|Hne]; [auto|].
    rewrite lookup_insert_ne in Hsome by congruence.
    destruct (analyze_body_keys _ _ _ _ _ key Hbody Hsome) as [?|[?|?]]; auto.
Qed.

(** X8: when no model is registered under one of the report's own keys and
    no stage raises, the report has no ["error"], has ["features"], and
    has ["transcript"] exactly when transcription is on.  With C2: the key
    ["error"] is present exactly when a stage raised. *)
Theorem successful_report_shape self audio_path w s :
  (forall key, key ∈ dict_keys (models self) ->
               key <> "features" /\ key <> "transcript" /\ key <> "error") ->
  analyze_body self audio_path (∅, w) = (Ok tt, s) ->
  fst (analyze self audio_path w) = Ok (fst s) /\
  fst s !! "error" = None /\
  (exists features, fst s !! "features" = Some (Features features)) /\
  (is_Some (fst s !! "transcript") <->
   truthy (dict_get_default "transcribe" (VBool true) (config self)) = true).
Proof.
  intros Hreserved Hbody.
  assert (Hnin : forall key, key = "features" \/ key = "transcript" \/ key = "error" ->
                             key ∉ dict_keys (models self)).
  { intros key Hkey Hin. destruct (Hreserved key Hin) as (H1 & H2 & H3).
    destruct Hkey as [?|[?|?]]; congruence. }
  split.
  { rewrite analyze_unfold, Hbody. now destruct s. }
  pose proof Hbody as Hloop. rewrite analyze_body_front in Hloop. unfold bind in Hloop.
  destruct (analyze_front self audio_path (∅, w)) as [[a|e] s0] eqn:Hfront;
    [|discriminate].
  destruct (analyze_front_results _ _ _ _ _ Hfront) as (Hfeat & Htrans & Hother).
  rewrite !(dispatch_loop_frame _ _ _ _ _ _ _ Hloop) by auto.
  split; [now apply Hother|]. split; [assumption|].
  split; [|intros Hon; destruct (Htrans Hon) as [text ->]; eauto].
  intros Hsome.
  destruct (truthy (dict_get_default "transcribe" (VBool true) (config self))) eqn:Hon;
    [reflexivity|].
  exfalso. clear Htrans Hfeat Hother Hloop Hbody.
  unfold analyze_front in Hfront.
  apply bind_inv_ok in Hfront as (a' & [r1 w1] & Hpre & H).
  assert (r1 = ∅) as ->.
  { unfold in_world in Hpre. simpl in Hpre.
    destruct (preprocess_audio self audio_path w). now injection Hpre as _ <- _. }
  apply bind_inv_ok in H as (features & s2 & Hf & H).
  rewrite extract_features_collect in Hf. injection Hf as _ <-.
  rewrite Hon in H. unfold bind, results_set, ret in H. simpl in H.
  injection H as _ <-. simpl in Hsome.
  rewrite lookup_insert_ne, lookup_empty in Hsome by discriminate.
  now destruct Hsome.
Qed.
End ReportTheorems.

Lemma report_keys_are_known_witness :
  "emotion_detector" = "features" \/ "emotion_detector" = "transcript" \/
  "emotion_detector" = "error" \/
  "emotion_detector" ∈ dict_keys (models lab_agent_three).
Proof.
  apply (report_keys_are_known lab_agent_three "clip.wav" lab_world
           (match fst (analyze lab_agent_three "clip.wav" lab_world) with
            | Ok report => report
            | Raise _ => ∅
            end)
           (snd (analyze lab_agent_three "clip.wav" lab_world))).
  - reflexivity.
  - eexists. reflexivity.
Defined.

Lemma successful_report_shape_witness :
  fst (analyze (lab_agent [] [("emotion_detector", lab_pipeline)]) "clip.wav" lab_world)
  = Ok (fst (snd (analyze_body (lab_agent [] [("emotion_detector", lab_pipeline)])
                    "clip.wav" (∅, lab_world)))) /\
  fst (snd (analyze_body (lab_agent [] [("emotion_detector", lab_pipeline)])
              "clip.wav" (∅, lab_world))) !! "error" = None /\
  (exists features,
      fst (snd (analyze_body (lab_agent [] [("emotion_detector", lab_pipeline)])
                  "clip.wav" (∅, lab_world))) !! "features"
      = Some (Features features)) /\
  (is_Some (fst (snd (analyze_body (lab_agent [] [("emotion_detector", lab_pipeline)])
                        "clip.wav" (∅, lab_world))) !! "transcript") <->
   truthy (dict_get_default "transcribe" (VBool true) []) = true).
Proof.
  apply (successful_report_shape (lab_agent [] [("emotion_detector", lab_pipeline)])
           "clip.wav" lab_world).
  - intros key Hkey. apply elem_of_cons in Hkey as [->|Hkey];
      [repeat split; discriminate | now apply elem_of_nil in Hkey].
  - reflexivity.
Defined.

(** ** Transcription *)

Section TranscriptionTheorems.
Context {X : Externals}.
Implicit Types (self : AudioAgent X) (w : world X).

(** X9: when the speech engine raises, the analysis goes on: the report
    has the empty string under ["transcript"], keeps its features, and the
    failure is in the log; whether the report has an ["error"] depends on
    the models alone. *)
Theorem transcription_failure_is_absorbed self audio_path w audio w1 features e :
  (forall key, key ∈ dict_keys (models self) ->
               key <> "features" /\ key <> "transcript" /\ key <> "error") ->
  preprocess_audio self audio_path w = (Ok audio, w1) ->
  extract_features self audio (∅ : gmap string report_value, w1)
    = (Ok features, (∅, w1)) ->
  truthy (dict_get_default "transcribe" (VBool true) (config self)) = true ->
  whisper_model self audio = Raise e ->
  exists report w',
    analyze self audio_path w = (Ok report, w') /\
    report !! "transcript" = Some (Transcript "") /\
    report !! "features" = Some (Features features) /\
    (ERROR, ErrorTranscribing (exn_str e)) ∈ w_log w' /\
    (is_Some (report !! "error") <->
     exists e', fst (dispatch_loop audio_path audio (models self)
                       (<["transcript" := Transcript ""]>
                          (<["features" := Features features]> ∅),
                        World (w_fs w1)
                          (w_log w1 ++ [(ERROR, ErrorTranscribing (exn_str e))])))
                = Raise e').
Proof.
  intros Hreserved Hpre Hfeat Hon Hwhisper.
  set (w2 := World (w_fs w1) (w_log w1 ++ [(ERROR, ErrorTranscribing (exn_str e))])).
  set (r0 := <["transcript" := Transcript ""]>
               (<["features" := Features features]> (∅ : gmap string report_value))).
  assert (Hfront : analyze_front self audio_path (∅, w) = (Ok audio, (r0, w2))).
  { unfold analyze_front.
    rewrite (bind_ok _ _ _ _ _ (in_world_ok _ ∅ _ _ _ Hpre)).
    rewrite (bind_ok _ _ _ _ _ Hfeat). rewrite Hon.
    unfold transcribe_audio, try_except, pure_call. rewrite Hwhisper.
    reflexivity. }
  assert (Hnin : forall key, key = "features" \/ key = "transcript" \/ key = "error" ->
                             key ∉ dict_keys (models self)).
  { intros key Hkey Hin. destruct (Hreserved key Hin) as (H1 & H2 & H3).
    destruct Hkey as [?|[?|?]]; congruence. }
  rewrite analyze_unfold, analyze_body_front, (bind_ok _ _ _ _ _ Hfront).
  fold w2 r0.
  pose proof (dispatch_loop_world audio_path audio (models self) (r0, w2)) as Hworld.
  destruct (dispatch_loop audio_path audio (models self) (r0, w2))
    as [[[]|e'] [r1 w3]] eqn:Hloop; simpl in Hworld; subst w3.
  - eexists _, _. split; [reflexivity|].
    rewrite !(dispatch_loop_frame _ _ _ _ _ _ _ Hloop) by auto. simpl. unfold r0.
    split; [apply lookup_insert_eq|].
    split; [now rewrite lookup_insert_ne, lookup_insert_eq by discriminate|].
    split; [apply elem_of_app; right; apply list_elem_of_here|].
    split; [|intros [e' He']; discriminate].
    intros [v Hv]. exfalso. revert Hv.
    rewrite ?lookup_insert_ne, ?lookup_empty by discriminate. discriminate.
  - eexists _, _. split; [reflexivity|].
    rewrite !lookup_insert_ne by discriminate.
    rewrite !(dispatch_loop_frame _ _ _ _ _ _ _ Hloop) by auto. simpl. unfold r0.
    split; [apply lookup_insert_eq|].
    split; [now rewrite lookup_insert_ne, lookup_insert_eq by discriminate|].
    split.
    { apply elem_of_app. left. apply elem_of_app. right. apply list_elem_of_here. }
    split; [eauto|]. intros _. rewrite lookup_insert_eq. eauto.
Qed.
End TranscriptionTheorems.

Lemma transcription_failure_is_absorbed_witness :
  exists report w',
    analyze lab_deaf_agent "clip.wav" lab_world = (Ok report, w') /\
    report !! "transcript" = Some (Transcript "") /\
    report !! "features" = Some (Features lab_features) /\
    (ERROR, ErrorTranscribing "CUDA out of memory") ∈ w_log w' /\
    (is_Some (report !! "error") <->
     exists e', fst (dispatch_loop (X:=lab) "clip.wav" [1; 0]%R (models lab_deaf_agent)
                       (<["transcript" := Transcript ""]>
                          (<["features" := Features lab_features]> ∅),
                        World (X:=lab) lab_disk
                          ([] ++ [(ERROR, ErrorTranscribing "CUDA out of memory")])))
                = Raise e').
Proof.
  apply (transcription_failure_is_absorbed lab_deaf_agent "clip.wav" lab_world
           [1; 0]%R lab_world lab_features (Exn "RuntimeError" "CUDA out of memory")).
  - intros key Hkey. apply elem_of_cons in Hkey as [->|Hkey];
      [repeat split; discriminate | now apply elem_of_nil in Hkey].
  - reflexivity.
  - reflexivity.
  - reflexivity.
  - reflexivity.
Defined.

(** ** Loading: what the log tells *)

Section LoadLogTheorems.
Context {X : Externals}.
Implicit Types (ms : list (string * Model (FS X))) (w : world X).














(** X11: a name [_load_models] has no branch for is reported as loaded,
    and nothing is stored or read for it. *)
Theorem unknown_model_is_reported_loaded dev ms n cfg w :
  n ∉ ["cough_classifier"; "breathing_analyzer"; "voice_analyzer"; "emotion_detector"] ->
  load_model_step dev ms n cfg w
  = (Ok ms, World (w_fs w) (w_log w ++ [(INFO, SuccessfullyLoaded n)])).
Proof.
  intros Hn. unfold load_model_step, load_model_body.
  destruct (String.eqb_spec n "cough_classifier") as [->|_];
    [exfalso; apply Hn; apply (bool_decide_unpack _); reflexivity|].
  destruct (String.eqb_spec n "breathing_analyzer") as [->|_];
    [exfalso; apply Hn; apply (bool_decide_unpack _); reflexivity|].
  destruct (String.eqb_spec n "voice_analyzer") as [->|_];
    [exfalso; apply Hn; apply (bool_decide_unpack _); reflexivity|].
  destruct (String.eqb_spec n "emotion_detector") as [->|_];
    [exfalso; apply Hn; apply (bool_decide_unpack _); reflexivity|].
  reflexivity.
Qed.
End LoadLogTheorems.

(** ** Loading: the weights *)

Section WeightsTheorems.
Context {X : Externals}.
Implicit Types (self : AudioAgent X) (ms : list (string * Model (FS X))) (w : world X).

Lemma log_grows {A} (m : M (world X) A) w line :
  log_blind m -> line ∈ w_log w -> line ∈ w_log (snd (m w)).
Proof.
  intros Hm Hin. destruct w as [fs l]. rewrite (Hm fs l). simpl.
  apply elem_of_app. now left.
Qed.

(** What the two loaders do on a configuration that is a dictionary, once
    the module is built and [os.path.exists] has answered. *)
Lemma loader_on_dict (c : module_class) dev d w m found :
  c = CoughClassifier \/ c = BreathingAnalyzer ->
  new_module X c dev = Ok m ->
  os_path_exists X (dict_get_default "model_path" (VStr (default_model_path c)) d) (w_fs w)
    = Ok found ->
  (match c with
   | CoughClassifier => _load_cough_classifier dev (VDict d)
   | _ => _load_breathing_analyzer dev (VDict d)
   end) w
  = if found
    then (load_state_dict X m
            (dict_get_default "model_path" (VStr (default_model_path c)) d) dev (w_fs w), w)
    else (Ok m,
          World (w_fs w)
            (w_log w ++
             [(WARNING,
               ModelNotFound c
                 (dict_get_default "model_path" (VStr (default_model_path c)) d))])).
Proof.
  intros [-> | ->] Hnew Hexists;
    unfold _load_cough_classifier, _load_breathing_analyzer, value_get, default_model_path;
    unfold bind, ret, pure_call, fs_read; simpl in *; rewrite Hnew, Hexists;
    destruct found; reflexivity.
Qed.

(** The iteration of [_load_models] for one of the two models it assigns. *)
Lemma load_model_body_assigns (c : module_class) n dev ms cfg w :
  (n = "cough_classifier" /\ c = CoughClassifier) \/
  (n = "breathing_analyzer" /\ c = BreathingAnalyzer) ->
  load_model_body dev ms n cfg w
  = (let* m := match c with
               | CoughClassifier => _load_cough_classifier dev cfg
               | _ => _load_breathing_analyzer dev cfg
               end in
     logger INFO (SuccessfullyLoaded n) ;;; ret (dict_set n m ms)) w.
Proof.
  intros [[-> ->]|[-> ->]]; unfold load_model_body; decide_names; unfold bind, ret;
    match goal with
    | |- context [match ?loader w with _ => _ end] => destruct (loader w) as [[m|e] w1]
    end; reflexivity.
Qed.

(** X12: when the weights file of a cough classifier or breathing analyzer
    does not exist, the freshly initialised module is registered all the
    same, and a warning is logged. *)
Theorem missing_weights_keep_fresh_module self (c : module_class) n pre d post
    w ms1 w1 m :
  (n = "cough_classifier" /\ c = CoughClassifier) \/
  (n = "breathing_analyzer" /\ c = BreathingAnalyzer) ->
  dict_get "models" (config self) = Some (VDict (pre ++ (n, VDict d) :: post)) ->
  NoDup (dict_keys (pre ++ (n, VDict d) :: post)) ->
  load_models_loop (device self) pre (models self) w = (Ok ms1, w1) ->
  new_module X c (device self) = Ok m ->
  os_path_exists X (dict_get_default "model_path" (VStr (default_model_path c)) d)
    (w_fs w1) = Ok false ->
  exists ms w',
    _load_models self w = (Ok ms, w') /\
    dict_get n ms = Some m /\
    (WARNING,
     ModelNotFound c (dict_get_default "model_path" (VStr (default_model_path c)) d))
      ∈ w_log w'.
Proof.
  intros Hn Hcfg Hnd Hpre Hnew Hexists.
  assert (Hc : c = CoughClassifier \/ c = BreathingAnalyzer)
    by (destruct Hn as [[_ ->]|[_ ->]]; auto).
  pose proof (loader_on_dict c (device self) d w1 m false Hc Hnew Hexists) as Hloader.
  cbv iota in Hloader.
  set (path := dict_get_default "model_path" (VStr (default_model_path c)) d) in *.
  set (w2 := World (w_fs w1) (w_log w1 ++ [(WARNING, ModelNotFound c path)])) in *.
  set (w3 := World (w_fs w2) (w_log w2 ++ [(INFO, SuccessfullyLoaded n)])).
  assert (Hstep : load_model_step (device self) ms1 n (VDict d) w1
                  = (Ok (dict_set n m ms1), w3)).
  { unfold load_model_step. apply try_except_ok.
    rewrite (load_model_body_assigns c n _ _ _ _ Hn).
    now rewrite (bind_ok _ _ _ _ _ Hloader). }
  unfold dict_keys in Hnd. rewrite map_app in Hnd. simpl in Hnd.
  apply NoDup_app in Hnd as (_ & _ & Hnd). apply NoDup_cons in Hnd as [Hpost _].
  destruct (load_models_loop_returns (device self) post (dict_set n m ms1) w3)
    as (ms & w' & Hloop).
  exists ms, w'. split; [|split].
  - rewrite (_load_models_unfold _ _ Hcfg), (load_models_loop_app _ _ _ _ _ _ _ Hpre).
    simpl. now rewrite (bind_ok _ _ _ _ _ Hstep).
  - rewrite (load_models_loop_other _ _ _ _ _ _ _ Hloop Hpost). apply dict_get_set_eq.
  - pose proof (log_grows (load_models_loop (device self) post (dict_set n m ms1)) w3
                  (WARNING, ModelNotFound c path)
                  (log_blind_load_models_loop _ _ _)) as Hlog.
    rewrite Hloop in Hlog. apply Hlog. unfold w3, w2. simpl.
    apply elem_of_app. left. apply elem_of_app. right. apply list_elem_of_here.
Qed.

(** X13: when the weights file exists and cannot be loaded, the model is
    not registered at all (no freshly initialised module takes its place),
    the failure is logged, and the models after it are still loaded. *)
Theorem unreadable_weights_drop_model self (c : module_class) n pre d post
    w ms1 w1 m e :
  (n = "cough_classifier" /\ c = CoughClassifier) \/
  (n = "breathing_analyzer" /\ c = BreathingAnalyzer) ->
  models self = [] ->
  dict_get "models" (config self) = Some (VDict (pre ++ (n, VDict d) :: post)) ->
  NoDup (dict_keys (pre ++ (n, VDict d) :: post)) ->
  load_models_loop (device self) pre [] w = (Ok ms1, w1) ->
  new_module X c (device self) = Ok m ->
  os_path_exists X (dict_get_default "model_path" (VStr (default_model_path c)) d)
    (w_fs w1) = Ok true ->
  load_state_dict X m (dict_get_default "model_path" (VStr (default_model_path c)) d)
    (device self) (w_fs w1) = Raise e ->
  exists ms w',
    _load_models self w = (Ok ms, w') /\
    dict_get n ms = None /\
    (ERROR, FailedToLoad n (exn_str e)) ∈ w_log w' /\
    load_models_loop (device self) post ms1
      (World (w_fs w1) (w_log w1 ++ [(ERROR, FailedToLoad n (exn_str e))]))
    = (Ok ms, w').
Proof.
  intros Hn Hempty Hcfg Hnd Hpre Hnew Hexists Hload.
  assert (Hc : c = CoughClassifier \/ c = BreathingAnalyzer)
    by (destruct Hn as [[_ ->]|[_ ->]]; auto).
  pose proof (loader_on_dict c (device self) d w1 m true Hc Hnew Hexists) as Hloader.
  cbv iota in Hloader. rewrite Hload in Hloader.
  set (w2 := World (w_fs w1) (w_log w1 ++ [(ERROR, FailedToLoad n (exn_str e))])).
  assert (Hstep : load_model_step (device self) ms1 n (VDict d) w1 = (Ok ms1, w2)).
  { apply load_model_step_failure.
    rewrite (load_model_body_assigns c n _ _ _ _ Hn).
    now rewrite (bind_raise _ _ _ _ _ Hloader). }
  unfold dict_keys in Hnd. rewrite map_app in Hnd. simpl in Hnd.
  apply NoDup_app in Hnd as (_ & Hdisj & Hnd). apply NoDup_cons in Hnd as [Hpost _].
  assert (Hn_pre : n ∉ dict_keys pre).
  { intros Hin. apply (Hdisj n Hin). apply list_elem_of_here. }
  destruct (load_models_loop_returns (device self) post ms1 w2) as (ms & w' & Hloop).
  exists ms, w'. split; [|split; [|split; [|exact Hloop]]].
  - rewrite (_load_models_unfold _ _ Hcfg), Hempty,
      (load_models_loop_app _ _ _ _ _ _ _ Hpre).
    simpl. now rewrite (bind_ok _ _ _ _ _ Hstep).
  - rewrite (load_models_loop_other _ _ _ _ _ _ _ Hloop Hpost).
    now rewrite (load_models_loop_other _ _ _ _ _ _ _ Hpre Hn_pre).
  - pose proof (log_grows (load_models_loop (device self) post ms1) w2
                  (ERROR, FailedToLoad n (exn_str e))
                  (log_blind_load_models_loop _ _ _)) as Hlog.
    rewrite Hloop in Hlog. apply Hlog. unfold w2. simpl.
    apply elem_of_app. right. apply list_elem_of_here.
Qed.
End WeightsTheorems.

Lemma missing_weights_keep_fresh_module_witness :
  exists ms w',
    _load_models (lab_new_agent lab lab_two_models) (World (X:=lab) lab_disk_weights [])
    = (Ok ms, w') /\
    dict_get "breathing_analyzer" ms = Some (lab_module (lab_logits BreathingAnalyzer)) /\
    (WARNING,
     ModelNotFound BreathingAnalyzer
       (dict_get_default "model_path" (VStr (default_model_path BreathingAnalyzer)) []))
      ∈ w_log w'.
Proof.
  eapply (missing_weights_keep_fresh_module (lab_new_agent lab lab_two_models)
            BreathingAnalyzer "breathing_analyzer"
            [("cough_classifier", VDict [("model_path", VStr "cough.pt")])] [] []
            (World (X:=lab) lab_disk_weights [])).
  - right. split; reflexivity.
  - reflexivity.
  - apply (bool_decide_unpack _). reflexivity.
  - reflexivity.
  - reflexivity.
  - reflexivity.
Defined.

Lemma unreadable_weights_drop_model_witness :
  exists ms w',
    _load_models (lab_new_agent lab_unreadable_weights lab_two_models)
      (World (X:=lab_unreadable_weights) lab_disk_weights [])
    = (Ok ms, w') /\
    dict_get "cough_classifier" ms = None /\
    (ERROR, FailedToLoad "cough_classifier" "invalid load key") ∈ w_log w' /\
    load_models_loop (X:=lab_unreadable_weights) cpu [("breathing_analyzer", VDict [])] []
      (World (X:=lab_unreadable_weights) lab_disk_weights
         ([] ++ [(ERROR, FailedToLoad "cough_classifier" "invalid load key")]))
    = (Ok ms, w').
Proof.
  eapply (unreadable_weights_drop_model
            (lab_new_agent lab_unreadable_weights lab_two_models)
            CoughClassifier "cough_classifier" [] [("model_path", VStr "cough.pt")]
            [("breathing_analyzer", VDict [])]
            (World (X:=lab_unreadable_weights) lab_disk_weights []) []
            (World (X:=lab_unreadable_weights) lab_disk_weights [])
            (lab_module (lab_logits CoughClassifier))
            (Exn "UnpicklingError" "invalid load key")).
  - left. split; reflexivity.
  - reflexivity.
  - reflexivity.
  - apply (bool_decide_unpack _). reflexivity.
  - reflexivity.
  - reflexivity.
  - reflexivity.
  - reflexivity.
Defined.


Lemma unknown_model_is_reported_loaded_witness :
  load_model_step (X:=lab) cpu [] "lung_sounds" (VDict []) lab_world
  = (Ok [], World (X:=lab) lab_disk ([] ++ [(INFO, SuccessfullyLoaded "lung_sounds")])).
Proof.
  apply (unknown_model_is_reported_loaded (X:=lab) cpu [] "lung_sounds" (VDict [])
           lab_world).
  apply (bool_decide_unpack _). reflexivity.
Defined.

(** ** Construction *)

Section InitTheorems.
Context {X : Externals}.
Implicit Types (ms : list (string * Model (FS X))) (w : world X).

Lemma load_models_loop_configured dev items :
  forall ms w ms' w' k,
    load_models_loop dev items ms w = (Ok ms', w') ->
    k ∈ dict_keys ms' ->
    k ∈ dict_keys ms \/
    (k ∈ dict_keys items /\ (k = "cough_classifier" \/ k = "breathing_analyzer")).
Proof.
  induction items as [|[n cfg] items IH]; intros ms w ms' w' k H Hk; simpl in H.
  - unfold ret in H. injection H as <- _. auto.
  - destruct (load_model_step_returns dev ms n cfg w) as (ms1 & w1 & H1).
    rewrite (bind_ok _ _ _ _ _ H1) in H.
    destruct (IH _ _ _ _ _ H Hk) as [Hin|[Hin Hname]].
    + apply load_model_step_registry in H1 as [->|[Hn [m ->]]]; [auto|].
      apply dict_keys_set in Hin as [->|Hin]; [|auto].
      right. split; [apply list_elem_of_here | exact Hn].
    + right. split; [now apply list_elem_of_further | exact Hname].
Qed.

(** X14: the constructor returns exactly when the speech engine loads and
    the value under ["models"] (a dictionary when the key is missing) is a
    dictionary: no failure of a single model can make it raise, but a
    configuration such as [{"models": None}] does. *)
Theorem init_returns_iff (conf : list (string * value)) w :
  (exists self w', __init__ conf w = (Ok self, w')) <->
  (exists whisper,
      whisper_load_model X (dict_get_default "whisper_model_size" (VStr "base") conf)
        (if torch_cuda_is_available X &&
            truthy (dict_get_default "use_gpu" (VBool true) conf)
         then cuda else cpu) (w_fs w) = Ok whisper) /\
  (exists items, dict_get_default "models" (VDict []) conf = VDict items).
Proof.
  unfold __init__. split.
  - intros (self & w' & H).
    apply bind_inv_ok in H as (whisper & w1 & Hwhisper & H).
    unfold fs_read in Hwhisper. injection Hwhisper as Hwhisper _.
    apply bind_inv_ok in H as (loaded & w2 & Hload & _).
    unfold _load_models in Hload. cbn [config] in Hload.
    apply bind_inv_ok in Hload as (items & w3 & Hitems & _).
    split; [eauto|].
    destruct (dict_get_default "models" (VDict []) conf); try discriminate. eauto.
  - intros [[whisper Hwhisper] [items Hitems]].
    rewrite (bind_ok _ _ w whisper w) by (unfold fs_read; now rewrite Hwhisper).
    unfold _load_models. cbn [config models device]. rewrite Hitems. simpl value_items.
    set (dev := if torch_cuda_is_available X &&
                   truthy (dict_get_default "use_gpu" (VBool true) conf)
                then cuda else cpu).
    destruct (load_models_loop_returns dev items [] w) as (ms & w1 & Hloop).
    rewrite (bind_ok _ _ w ms w1) by exact Hloop.
    unfold bind, logger, ret. eauto.
Qed.

(** X15: the agent the constructor returns keeps the configuration it was
    given, and its registry holds distinct names, each of them configured
    under ["models"] and each of them ["cough_classifier"] or
    ["breathing_analyzer"]. *)
Theorem init_registry (conf : list (string * value)) w self w' :
  __init__ conf w = (Ok self, w') ->
  config self = conf /\
  sample_rate self = dict_get_default "sample_rate" (VInt 16000) conf /\
  NoDup (dict_keys (models self)) /\
  exists items,
    dict_get_default "models" (VDict []) conf = VDict items /\
    forall k, k ∈ dict_keys (models self) ->
              k ∈ dict_keys items /\
              (k = "cough_classifier" \/ k = "breathing_analyzer").
Proof.
  unfold __init__. intros H.
  apply bind_inv_ok in H as (whisper & w1 & _ & H).
  apply bind_inv_ok in H as (loaded & w2 & Hload & H).
  unfold bind, logger, ret in H. injection H as <- _. cbn [config sample_rate models].
  split; [reflexivity|]. split; [reflexivity|].
  unfold _load_models in Hload. cbn [config models device] in Hload.
  apply bind_inv_ok in Hload as (items & w3 & Hitems & Hloop).
  destruct (dict_get_default "models" (VDict []) conf) as [| | | | |d] eqn:Hcfg;
    try discriminate.
  unfold value_items, ret in Hitems. injection Hitems as <- <-.
  split.
  - apply (load_models_loop_keys _ _ _ _ _ _ Hloop (NoDup_nil_2)).
  - exists d. split; [reflexivity|]. intros k Hk.
    destruct (load_models_loop_configured _ _ _ _ _ _ k Hloop Hk) as [Hin|?];
      [now apply elem_of_nil in Hin | assumption].
Qed.
End InitTheorems.

Lemma init_registry_witness :
  exists self w',
    __init__ (X:=lab) lab_two_models (World (X:=lab) lab_disk_weights [])
    = (Ok self, w') /\
    config self = lab_two_models /\
    sample_rate self = dict_get_default "sample_rate" (VInt 16000) lab_two_models /\
    NoDup (dict_keys (models self)) /\
    exists items,
      dict_get_default "models" (VDict []) lab_two_models = VDict items /\
      forall k, k ∈ dict_keys (models self) ->
                k ∈ dict_keys items /\
                (k = "cough_classifier" \/ k = "breathing_analyzer").
Proof.
  eexists _, _. split; [cbv; reflexivity|].
  eapply (init_registry (X:=lab) lab_two_models (World (X:=lab) lab_disk_weights [])).
  cbv. reflexivity.
Defined.

(** ** Classifiers whose output does not have one logit per label *)

Section MismatchTheorems.
Context {X : Externals}.
Local Open Scope R_scope.

Lemma zip_take_l (classes : list string) (probs : list R) :
  zip classes probs = zip (take (length probs) classes) probs.
Proof.
  revert probs. induction classes as [|c classes IH]; intros [|p probs]; simpl;
    try reflexivity.
  now rewrite <- IH.
Qed.


(** X16: when the forward pass of a classifier returns fewer logits than
    the model has labels, no error is raised: the record is built on the
    first labels only, one per logit, and its probabilities still add up
    to one. *)
Theorem short_output_drops_labels (audio_path : string) (audio : list R)
    (model_name : string) (classes : list string) (model : Model (FS X))
    (results : gmap string report_value) (w : world X)
    (output : list (list R)) (row : list R) :
  (model_name = "cough_classifier" /\ classes = cough_classes) \/
  (model_name = "breathing_analyzer" /\ classes = breathing_classes) ->
  call_tensor model (model_input audio) = Ok output ->
  output !! 0%nat = Some row ->
  row <> [] ->
  (length row <= length classes)%nat ->
  exists prediction confidence probabilities,
    dispatch_model audio_path audio model_name model (results, w) =
      (Ok tt,
       (<[model_name := Classification prediction confidence probabilities]> results, w)) /\
    dict_keys probabilities = take (length row) classes /\
    Rsum (map snd probabilities) = 1 /\
    (prediction, confidence) ∈ probabilities.
Proof.
  intros Hname Hcall Hrow Hne Hlen.
  assert (Hnd : NoDup classes).
  { destruct Hname as [[_ ->]|[_ ->]];
      auto using NoDup_cough_classes, NoDup_breathing_classes. }
  assert (Hsm_ne : softmax row <> []).
  { intros Heq. apply (f_equal length) in Heq. rewrite length_softmax in Heq.
    destruct row; [congruence|discriminate]. }
  destruct (torch_argmax_spec (S:=run_state (X:=X)) (softmax row) (results, w) Hsm_ne)
    as (idx & v & Harg & Hv & _ & _).
  assert (Hidx : (idx < length classes)%nat).
  { apply lookup_lt_Some in Hv. rewrite length_softmax in Hv. lia. }
  destruct (lookup_lt_is_Some_2 classes idx Hidx) as [prediction Hpred].
  assert (Hkeys : dict_keys (zip classes (softmax row)) = take (length row) classes).
  { rewrite zip_take_l, length_softmax. apply dict_keys_zip.
    rewrite length_softmax, length_take_le; lia. }
  assert (Hrec : classifier_record classes output (results, w)
                 = (Ok (Classification prediction v (zip classes (softmax row))),
                    (results, w))).
  { unfold classifier_record, list_getitem, tensor_getitem, softmax_dim1.
    change (map softmax output) with (softmax <$> output).
    rewrite list_lookup_fmap, Hrow. simpl.
    unfold bind at 1. unfold ret at 1.
    rewrite (bind_ok _ _ _ _ _ Harg), Hpred.
    unfold bind at 1. unfold ret at 1. rewrite Hv.
    unfold bind, ret. rewrite dict_of_pairs_NoDup; [reflexivity|].
    rewrite Hkeys. eauto using sublist_NoDup, sublist_take. }
  exists prediction, v, (zip classes (softmax row)).
  split; [|split; [exact Hkeys|split]].
  - unfold dispatch_model.
    destruct Hname as [[-> ->]|[-> ->]]; decide_names;
      unfold pure_call; rewrite Hcall;
      unfold bind at 1; rewrite (bind_ok _ _ _ _ _ Hrec); reflexivity.
  - rewrite zip_take_l, map_snd_zip.
    + now apply Rsum_softmax.
    + rewrite length_softmax, length_take_le; lia.
  - apply list_elem_of_lookup. exists idx. apply lookup_zip_with_Some. eauto.
Qed.

End MismatchTheorems.

(** ** The window of the classifiers *)

(** X18: the tensor [analyze] hands to a classifier keeps the whole clip,
    and the two convolutions and poolings of [CoughClassifier] and
    [BreathingAnalyzer] leave the 99 positions per channel that [fc1]
    takes exactly when the clip has between 9955 and 10054 samples. *)
Theorem classifier_window (audio : list R) :
  exists row,
    model_input audio = [[row]] /\
    (flattened_length (length row) = 99 <->
     (9955 <= Z.of_nat (length audio) <= 10054)%Z).
Proof.
  exists audio. split; [reflexivity|].
  generalize (length audio). intros n. unfold flattened_length.
  pose proof (Nat.div_mod_eq ((((n - 10) / 5 + 1) / 2 - 10) / 5 + 1) 2).
  pose proof (Nat.mod_upper_bound ((((n - 10) / 5 + 1) / 2 - 10) / 5 + 1) 2).
  pose proof (Nat.div_mod_eq (((n - 10) / 5 + 1) / 2 - 10) 5).
  pose proof (Nat.mod_upper_bound (((n - 10) / 5 + 1) / 2 - 10) 5).
  pose proof (Nat.div_mod_eq ((n - 10) / 5 + 1) 2).
  pose proof (Nat.mod_upper_bound ((n - 10) / 5 + 1) 2).
  pose proof (Nat.div_mod_eq (n - 10) 5).
  pose proof (Nat.mod_upper_bound (n - 10) 5).
  lia.
Qed.

Lemma short_output_drops_labels_witness :
  exists prediction confidence probabilities,
    dispatch_model (X:=lab) "clip.wav" [1; 0]%R "cough_classifier"
      (lab_module [0; 0; 0]%R) (∅, lab_world)
    = (Ok tt,
       (<["cough_classifier" := Classification prediction confidence probabilities]> ∅,
        lab_world)) /\
    dict_keys probabilities = take (length [0; 0; 0]%R) cough_classes /\
    Rsum (map snd probabilities) = 1%R /\
    (prediction, confidence) ∈ probabilities.
Proof.
  apply (short_output_drops_labels (X:=lab) "clip.wav" [1; 0]%R "cough_classifier"
           cough_classes (lab_module [0; 0; 0]%R) ∅ lab_world
           [[0; 0; 0]%R] [0; 0; 0]%R).
  - left. split; reflexivity.
  - reflexivity.
  - reflexivity.
  - discriminate.
  - simpl. lia.
Defined.


(** ** The keys of the features *)

Section FeatureKeyTheorems.
Context {X : Externals}.
Implicit Types (self : AudioAgent X) (features : gmap string feature).

Lemma collect_features_keys attempts :
  forall features features' key,
    collect_features attempts features = Ok features' ->
    is_Some (features' !! key) <->
    key ∈ map fst attempts \/ is_Some (features !! key).
Proof.
  induction attempts as [|[k [v|e]] rest IH]; intros features features' key H;
    simpl in H.
  - injection H as <-. simpl. rewrite elem_of_nil. tauto.
  - rewrite (IH _ _ key H). simpl. rewrite elem_of_cons.
    destruct (decide (key = k)) as [->|Hne].
    + rewrite lookup_insert_eq. split; [auto|]. intros _. right. eauto.
    + rewrite lookup_insert_ne by congruence. tauto.
  - discriminate.
Qed.

Lemma feature_attempt_keys self audio key :
  key ∈ map fst (feature_attempts self audio) <->
  (key = "mfcc" /\
   truthy (dict_get_default "extract_mfcc" (VBool true) (config self)) = true) \/
  (key = "spectral_centroid" /\
   truthy (dict_get_default "external_spectral_centroid" (VBool true) (config self))
   = true) \/
  (key = "bandwidth" /\
   truthy (dict_get_default "extract_chroma" (VBool true) (config self)) = true) \/
  (key = "tempo" /\
   truthy (dict_get_default "extract_tempo" (VBool true) (config self)) = true).
Proof.
  unfold feature_attempts, attempt.
  destruct (truthy (dict_get_default "extract_mfcc" _ _));
  destruct (truthy (dict_get_default "external_spectral_centroid" _ _));
  destruct (truthy (dict_get_default "extract_chroma" _ _));
  destruct (truthy (dict_get_default "extract_tempo" _ _)); simpl;
  rewrite ?elem_of_cons, elem_of_nil; intuition congruence.
Qed.

(** X19: the dictionary [extract_features] returns has a key exactly for
    each feature whose toggle, as the code spells it, is on: ["mfcc"] for
    [extract_mfcc], ["spectral_centroid"] for [external_spectral_centroid],
    ["bandwidth"] for [extract_chroma], ["tempo"] for [extract_tempo], and
    no other key. *)
Theorem feature_keys_of_the_code {S} self audio (s s' : S) features key :
  extract_features self audio s = (Ok features, s') ->
  is_Some (features !! key) <->
  (key = "mfcc" /\
   truthy (dict_get_default "extract_mfcc" (VBool true) (config self)) = true) \/
  (key = "spectral_centroid" /\
   truthy (dict_get_default "external_spectral_centroid" (VBool true) (config self))
   = true) \/
  (key = "bandwidth" /\
   truthy (dict_get_default "extract_chroma" (VBool true) (config self)) = true) \/
  (key = "tempo" /\
   truthy (dict_get_default "extract_tempo" (VBool true) (config self)) = true).
Proof.
  rewrite extract_features_collect. intros H. injection H as H _.
  rewrite (collect_features_keys _ _ _ key H), <- (feature_attempt_keys self audio key).
  rewrite lookup_empty. split; [intros [?|[? ?]]; [assumption|discriminate] | auto].
Qed.
End FeatureKeyTheorems.

Lemma feature_keys_of_the_code_witness :
  is_Some (lab_features !! "spectral_centroid") <->
  ("spectral_centroid" = "mfcc" /\
   truthy (dict_get_default "extract_mfcc" (VBool true)
             (config (lab_agent [("extract_spectral_centroid", VBool false)] [])))
   = true) \/
  ("spectral_centroid" = "spectral_centroid" /\
   truthy (dict_get_default "external_spectral_centroid" (VBool true)
             (config (lab_agent [("extract_spectral_centroid", VBool false)] [])))
   = true) \/
  ("spectral_centroid" = "bandwidth" /\
   truthy (dict_get_default "extract_chroma" (VBool true)
             (config (lab_agent [("extract_spectral_centroid", VBool false)] [])))
   = true) \/
  ("spectral_centroid" = "tempo" /\
   truthy (dict_get_default "extract_tempo" (VBool true)
             (config (lab_agent [("extract_spectral_centroid", VBool false)] [])))
   = true).
Proof.
  apply (feature_keys_of_the_code
           (lab_agent [("extract_spectral_centroid", VBool false)] [])
           [1; 0]%R tt tt lab_features "spectral_centroid").
  reflexivity.
Defined.

(** ** One record per model *)

Section RecordTheorems.
Context {X : Externals}.
Implicit Types (self : AudioAgent X) (s : run_state (X:=X)).

(** An iteration that returns has stored a record exactly when [analyze]
    has a branch for the name of the model. *)
Lemma dispatch_model_stores audio_path audio model_name model s s' :
  dispatch_model audio_path audio model_name model s = (Ok tt, s') ->
  (model_name ∈ dispatched_names -> is_Some (fst s' !! model_name)) /\
  (model_name ∉ dispatched_names -> s' = s).
Proof.
  unfold dispatch_model, dispatched_names. destruct s as [results w].
  destruct (String.eqb_spec model_name "emotion_detector") as [->|Hemo].
  { unfold bind, in_world, fs_read, results_set. simpl.
    destruct (call_path model audio_path (w_fs w)); [|discriminate].
    intros H. injection H as <-. simpl. rewrite lookup_insert_eq.
    split; [eauto|]. intros Hn. exfalso. apply Hn, list_elem_of_here. }
  unfold bind at 1. unfold pure_call.
  destruct (call_tensor model (model_input audio)) as [output|e]; [|discriminate].
  assert (Hstore : forall (m : M (run_state (X:=X)) report_value),
             stateless m ->
             bind m (results_set model_name) (results, w) = (Ok tt, s') ->
             is_Some (fst s' !! model_name)).
  { intros m Hm H.
    destruct (store_record_cases m model_name (results, w) Hm) as [[e He]|[v Hv]];
      rewrite H in *; [discriminate|].
    injection Hv as ->. simpl. rewrite lookup_insert_eq. eauto. }
  destruct (String.eqb_spec model_name "cough_classifier") as [->|Hcough].
  { intros H. split; [intros _|].
    2: { intros Hn. exfalso. apply Hn. apply (bool_decide_unpack _). reflexivity. }
    eapply Hstore; [apply stateless_classifier_record | exact H]. }
  destruct (String.eqb_spec model_name "breathing_analyzer") as [->|Hbreath].
  { intros H. split; [intros _|].
    2: { intros Hn. exfalso. apply Hn. apply (bool_decide_unpack _). reflexivity. }
    eapply Hstore; [apply stateless_classifier_record | exact H]. }
  destruct (String.eqb_spec model_name "voice_analyzer") as [->|Hvoice].
  { intros H. split; [intros _|].
    2: { intros Hn. exfalso. apply Hn. apply (bool_decide_unpack _). reflexivity. }
    eapply Hstore; [apply stateless_voice_record | exact H]. }
  unfold ret. intros H. injection H as <-.
  split; [|reflexivity]. intros Hin.
  repeat (apply elem_of_cons in Hin as [?|Hin]; [congruence|]).
  now apply elem_of_nil in Hin.
Qed.

Lemma dispatch_loop_records audio_path audio (items : list (string * Model (FS X))) :
  forall s s' name,
    NoDup (dict_keys items) ->
    dispatch_loop audio_path audio items s = (Ok tt, s') ->
    name ∈ dict_keys items ->
    (name ∈ dispatched_names -> is_Some (fst s' !! name)) /\
    (name ∉ dispatched_names -> fst s' !! name = fst s !! name).
Proof.
  induction items as [|[n m] items IH]; intros s s' name Hnd H Hin; simpl in *.
  - now apply elem_of_nil in Hin.
  - apply NoDup_cons in Hnd as [Hn Hnd]. unfold bind in H.
    destruct (dispatch_model audio_path audio n m s) as [[[]|e] s1] eqn:H1;
      [|discriminate].
    apply elem_of_cons in Hin as [->|Hin].
    + rewrite (dispatch_loop_frame _ _ _ _ _ _ _ H Hn).
      destruct (dispatch_model_stores _ _ _ _ _ _ H1) as [Hyes Hno].
      split; [assumption|]. intros Hnot. now rewrite (Hno Hnot).
    + destruct (IH _ _ name Hnd H Hin) as [Hyes Hno]. split; [assumption|].
      intros Hnot. rewrite (Hno Hnot).
      apply (dispatch_model_frame _ _ _ _ _ _ _ _ H1).
      intros ->. contradiction.
Qed.

(** X20: when no stage raises, the report has a record under the name of
    a registered model exactly when that name is one of the four
    [analyze] has a branch for; a model registered under any other name is
    called, and its answer is dropped. *)
Theorem one_record_per_dispatched_model self audio_path w s name :
  NoDup (dict_keys (models self)) ->
  (forall key, key ∈ dict_keys (models self) ->
               key <> "features" /\ key <> "transcript" /\ key <> "error") ->
  analyze_body self audio_path (∅, w) = (Ok tt, s) ->
  name ∈ dict_keys (models self) ->
  fst (analyze self audio_path w) = Ok (fst s) /\
  (is_Some (fst s !! name) <-> name ∈ dispatched_names).
Proof.
  intros Hnd Hreserved Hbody Hin.
  split; [rewrite analyze_unfold, Hbody; now destruct s|].
  rewrite analyze_body_front in Hbody. unfold bind in Hbody.
  destruct (analyze_front self audio_path (∅, w)) as [[a|e] s0] eqn:Hfront;
    [|discriminate].
  destruct (analyze_front_results _ _ _ _ _ Hfront) as (_ & _ & Hother).
  destruct (dispatch_loop_records _ _ _ _ _ name Hnd Hbody Hin) as [Hyes Hno].
  destruct (Hreserved name Hin) as (H1 & H2 & _).
  split; [|assumption].
  intros Hsome. destruct (decide (name ∈ dispatched_names)) as [|Hnot]; [assumption|].
  rewrite (Hno Hnot), (Hother name H1 H2) in Hsome. now destruct Hsome.
Qed.
End RecordTheorems.

Lemma one_record_per_dispatched_model_witness :
  fst (analyze (lab_agent [] [("emotion_detector", lab_pipeline);
                              ("lung_sounds", lab_module [0]%R)])
         "clip.wav" lab_world)
  = Ok (fst (snd (analyze_body (lab_agent [] [("emotion_detector", lab_pipeline);
                                             ("lung_sounds", lab_module [0]%R)])
                    "clip.wav" (∅, lab_world)))) /\
  (is_Some (fst (snd (analyze_body (lab_agent [] [("emotion_detector", lab_pipeline);
                                                 ("lung_sounds", lab_module [0]%R)])
                        "clip.wav" (∅, lab_world))) !! "lung_sounds")
   <-> "lung_sounds" ∈ dispatched_names).
Proof.
  apply (one_record_per_dispatched_model
           (lab_agent [] [("emotion_detector", lab_pipeline);
                          ("lung_sounds", lab_module [0]%R)])
           "clip.wav" lab_world).
  - apply (bool_decide_unpack _). reflexivity.
  - intros key Hkey.
    repeat (apply elem_of_cons in Hkey as [->|Hkey]; [repeat split; discriminate|]).
    now apply elem_of_nil in Hkey.
  - reflexivity.
  - apply (bool_decide_unpack _). reflexivity.
Defined.
